(** * Egg Store API (main.py): a shallow embedding and its properties

    The service is a FastAPI application over a MongoDB database handle [db]
    that may be absent.  The embedding follows main.py function by function:
    [to_str_id], [seed_products], [read_root], [list_products],
    [create_order] and [test_database].

    - Python floats are kept behind the interface [PyFloat]; every theorem
      holds for every interpretation of it.  [Binary64] interprets it with
      the Standard Library's IEEE 754 specification.
    - Python dictionaries are finite maps from strings to values.
    - The handlers run in a state-and-exception monad over [World]: the
      database handle with the contents of its collections, the process
      environment, and the trace of driver calls issued so far.
    - Driver calls can raise: [outage] tells, for the n-th call issued to the
      database, whether it raises and with what message. *)

From Stdlib Require Import ZArith NArith String Ascii List Lia DecimalString.
From Stdlib Require Import Floats.SpecFloat.
From stdpp Require Import base option list gmap strings.

Set Warnings "-register-all".
Set Default Proof Using "Type".

Open Scope string_scope.
Open Scope list_scope.

(* ------------------------------------------------------------------ *)
(** ** Python text *)

(** Python strings are sequences of code points; [string] holds their UTF-8
    bytes.  A byte [10xxxxxx] continues the character started before it. *)
Definition utf8_continuation (c : ascii) : bool :=
  let n := N_of_ascii c in ((128 <=? n) && (n <? 192))%N.

(** [s[:n]]: the first [n] characters of [s]. *)
Fixpoint py_prefix (n : nat) (s : string) : string :=
  match s with
  | EmptyString => EmptyString
  | String c s' =>
      if utf8_continuation c then String c (py_prefix n s')
      else match n with
           | O => EmptyString
           | S n' => String c (py_prefix n' s')
           end
  end.

(** [len(s)] in characters. *)
Fixpoint py_len (s : string) : nat :=
  match s with
  | EmptyString => O
  | String c s' => if utf8_continuation c then py_len s' else S (py_len s')
  end.

(* ------------------------------------------------------------------ *)
(** ** bson.ObjectId

    An ObjectId wraps a byte string, [binary]; the driver generates
    identifiers of 12 bytes.  [ObjectId(s)] accepts a string of 24 characters
    that [bytes.fromhex] reads, and raises [InvalidId] on anything else;
    [fromhex] skips ASCII blanks before a byte, so the bytes read can be
    fewer than 12.  [str(oid)] writes the bytes as lower-case hexadecimal
    digits.  Two identifiers are equal when their bytes are. *)

Record ObjectId := Oid { binary : string }.

Definition hex_val (c : ascii) : option N :=
  let n := N_of_ascii c in
  if ((48 <=? n) && (n <=? 57))%N then Some (n - 48)%N
  else if ((97 <=? n) && (n <=? 102))%N then Some (n - 87)%N
  else if ((65 <=? n) && (n <=? 70))%N then Some (n - 55)%N
  else None.

(** The ASCII blanks: space, tab, line feed, vertical tab, form feed,
    carriage return. *)
Definition is_space (c : ascii) : bool :=
  let n := N_of_ascii c in ((n =? 32) || ((9 <=? n) && (n <=? 13)))%N.

(** [bytes.fromhex(s)]; [None] when it raises [ValueError]. *)
Fixpoint fromhex (s : string) : option string :=
  match s with
  | EmptyString => Some EmptyString
  | String c s' =>
      if is_space c then fromhex s'
      else
        match hex_val c, s' with
        | Some hi, String c' s'' =>
            match hex_val c', fromhex s'' with
            | Some lo, Some bytes => Some (String (ascii_of_N (16 * hi + lo)) bytes)
            | _, _ => None
            end
        | _, _ => None
        end
  end.

(** [ObjectId(s)] for a string [s]; [None] when it raises [InvalidId]. *)
Definition ObjectId_of_str (s : string) : option ObjectId :=
  if Nat.eqb (py_len s) 24 then
    match fromhex s with
    | Some bytes => Some (Oid bytes)
    | None => None
    end
  else None.

Definition hex_digit (n : N) : ascii :=
  if (n <? 10)%N then ascii_of_N (48 + n) else ascii_of_N (87 + n).

(** [binascii.hexlify] *)
Fixpoint hexlify (bytes : string) : string :=
  match bytes with
  | EmptyString => EmptyString
  | String c bytes' =>
      let n := N_of_ascii c in
      String (hex_digit (n / 16)%N) (String (hex_digit (n mod 16)%N) (hexlify bytes'))
  end.

Definition oid_str (o : ObjectId) : string := hexlify (binary o).

Definition oid_eqb (a b : ObjectId) : bool := String.eqb (binary a) (binary b).

(** The [k] low bytes of [n], most significant first, before [acc]. *)
Fixpoint bytes_be (k : nat) (n : N) (acc : string) : string :=
  match k with
  | O => acc
  | S k' => bytes_be k' (n / 256)%N (String (ascii_of_N (n mod 256)%N) acc)
  end.

(** The 12-byte identifier the driver generates from its counter. *)
Definition generated (n : N) : ObjectId := Oid (bytes_be 12 n EmptyString).

(* ------------------------------------------------------------------ *)
(** ** Python floats *)

(** The float operations main.py uses. *)
Class PyFloat (num : Type) := {
  (** the literal [0.0] *)
  fzero : num;
  (** [x + y] and [x * y] on floats *)
  fadd : num -> num -> num;
  fmul : num -> num -> num;
  (** the conversion of an [int] to float, as [float(n)] and [x * n] do it;
      [None] when it raises [OverflowError] *)
  of_int : Z -> option num;
  (** the decimal literal [m / 10^k]: [fdec 499 2] is [4.99] *)
  fdec : Z -> nat -> num;
  (** [round(x, 2)] *)
  round2 : num -> num;
  (** [bool(x)] *)
  fnonzero : num -> bool;
  (** [float(s)] on a string; [None] when it raises [ValueError] *)
  float_of_string : string -> option num;
}.

(* ------------------------------------------------------------------ *)
(** ** IEEE 754 binary64 as an interpretation of [PyFloat] *)

Module Binary64.

Definition prec : Z := 53.
Definition emax : Z := 1024.

(** The double nearest to [n / d], ties to even; negated when [neg]. *)
Definition ratio (neg : bool) (n d : positive) : spec_float :=
  let '(q, e, l) := SFdiv_core_binary prec emax (Z.pos n) 0 (Z.pos d) 0 in
  binary_round_aux prec emax neg q e l.

(** The double nearest to an integer; an infinity when that is out of
    range. *)
Definition of_Z (z : Z) : spec_float := binary_normalize prec emax z 0 false.

(** The conversion of a Python [int]: it raises [OverflowError] when the
    nearest double is out of range. *)
Definition of_int (z : Z) : option spec_float :=
  match of_Z z with
  | S754_infinity _ => None
  | x => Some x
  end.

Definition add : spec_float -> spec_float -> spec_float := SFadd prec emax.
Definition mul : spec_float -> spec_float -> spec_float := SFmul prec emax.

(** The double nearest to [m / 10^k]. *)
Definition dec (m : Z) (k : nat) : spec_float :=
  match m with
  | Z0 => S754_zero false
  | Z.pos n => ratio false n (Z.to_pos (10 ^ Z.of_nat k))
  | Z.neg n => ratio true n (Z.to_pos (10 ^ Z.of_nat k))
  end.

(** Integer nearest to [n / d], ties to even ([0 < d]). *)
Definition div_half_even (n d : Z) : Z :=
  let q := (n / d)%Z in
  let r := (n mod d)%Z in
  match (2 * r ?= d)%Z with
  | Lt => q
  | Gt => (q + 1)%Z
  | Eq => if Z.even q then q else (q + 1)%Z
  end.

(** [round(x, 2)]: the exact value of [x] is rounded half-even to two
    decimals and the decimal read back as a double.  Values with no
    fractional bits, zeros, infinities and NaN round to themselves. *)
Definition round_2 (x : spec_float) : spec_float :=
  match x with
  | S754_finite s m e =>
      if (0 <=? e)%Z then x
      else
        match div_half_even (Z.pos m * 100) (2 ^ (- e)) with
        | Z.pos q => ratio s q 100
        | _ => S754_zero s
        end
  | _ => x
  end.

Definition nonzero (x : spec_float) : bool :=
  match x with
  | S754_zero _ => false
  | _ => true
  end.

Definition digit_val (c : ascii) : option Z :=
  let n := N_of_ascii c in
  if ((48 <=? n) && (n <=? 57))%N then Some (Z.of_N (n - 48)) else None.

(** Reads [digits] or [digits.digits]: the mantissa and the number of
    digits after the point. *)
Fixpoint read_decimal (s : string) (m : Z) (frac : option nat) : option (Z * nat) :=
  match s with
  | EmptyString => Some (m, default O frac)
  | String c s' =>
      if Ascii.eqb c "." then
        match frac with
        | None => read_decimal s' m (Some O)
        | Some _ => None
        end
      else
        match digit_val c with
        | Some d => read_decimal s' (10 * m + d)%Z (S <$> frac)
        | None => None
        end
  end.

(** [float(s)] for plain decimal numerals with an optional sign.  The other
    spellings Python reads (exponents, [inf], [nan], underscores,
    surrounding blanks) are not covered and read as an error here. *)
Definition of_string (s : string) : option spec_float :=
  let '(neg, body) :=
    match s with
    | String "-" t => (true, t)
    | String "+" t => (false, t)
    | _ => (false, s)
    end in
  match body with
  | EmptyString | String "." EmptyString => None
  | _ =>
      match read_decimal body 0 None with
      | Some (m, k) =>
          Some (if neg then SFopp (dec m k) else dec m k)
      | None => None
      end
  end.

(** *** [repr] of a double: the shortest decimal that reads back *)

Definition same (x y : spec_float) : bool :=
  match x, y with
  | S754_finite s m e, S754_finite s' m' e' =>
      Bool.eqb s s' && (m =? m')%positive && (e =? e')%Z
  | _, _ => false
  end.

(** [m * 2^e] as a fraction *)
Definition exact (m : positive) (e : Z) : Z * Z :=
  if (0 <=? e)%Z then (Z.pos m * 2 ^ e, 1)%Z else (Z.pos m, 2 ^ (- e))%Z.

(** [10^k <= n / d] *)
Definition pow10_le (k n d : Z) : bool :=
  if (0 <=? k)%Z then (10 ^ k * d <=? n)%Z else (d <=? n * 10 ^ (- k))%Z.

(** The floor of the decimal logarithm of [n / d], found around an estimate
    taken from the binary logarithms. *)
Definition log10_floor (n d : Z) : Z :=
  let est := ((Z.log2 n - Z.log2 d) * 30103 / 100000)%Z in
  if pow10_le (est + 2) n d then (est + 2)%Z
  else if pow10_le (est + 1) n d then (est + 1)%Z
  else if pow10_le est n d then est
  else if pow10_le (est - 1) n d then (est - 1)%Z
  else (est - 2)%Z.

(** [mant * 10^ex] read as a double *)
Definition of_decimal (mant : positive) (ex : Z) : spec_float :=
  if (0 <=? ex)%Z then ratio false (mant * Z.to_pos (10 ^ ex)) 1
  else ratio false mant (Z.to_pos (10 ^ (- ex))).

(** The two [p]-digit decimals around [n / d], the nearer first, each with
    the exponent of its last digit. *)
Definition candidates (n d k : Z) (p : Z) : list (Z * Z) :=
  let t := (p - 1 - k)%Z in
  let '(n', d') := if (0 <=? t)%Z then (n * 10 ^ t, d)%Z else (n, d * 10 ^ (- t))%Z in
  let near := div_half_even n' d' in
  let low := (n' / d')%Z in
  let far := if (near =? low)%Z then (low + 1)%Z else low in
  [(near, (- t)%Z); (far, (- t)%Z)].

Definition round_trips (x : spec_float) (c : Z * Z) : bool :=
  match fst c with
  | Z.pos mant => same (of_decimal mant (snd c)) x
  | _ => false
  end.

Fixpoint shortest (fuel : nat) (p : Z) (x : spec_float) (n d k : Z) : Z * Z :=
  match fuel with
  | O => (0, 0)%Z
  | S fuel' =>
      match List.find (round_trips x) (candidates n d k p) with
      | Some c => c
      | None => shortest fuel' (p + 1)%Z x n d k
      end
  end.

Fixpoint strip_zeros (fuel : nat) (c : Z * Z) : Z * Z :=
  match fuel with
  | O => c
  | S fuel' =>
      if ((fst c mod 10 =? 0) && negb (fst c =? 0))%Z
      then strip_zeros fuel' (fst c / 10, snd c + 1)%Z
      else c
  end.

Definition digits_of (z : Z) : string := NilZero.string_of_int (Z.to_int z).

Fixpoint zeros (n : nat) : string :=
  match n with
  | O => ""
  | S n' => String "0" (zeros n')
  end.

Definition substring_from (n : nat) (s : string) : string :=
  String.substring n (String.length s - n) s.

(** The text of a positive finite double whose shortest digits are [ds],
    with the decimal point after [decpt] of them: exponent notation when
    [decpt <= -4] or [decpt > 16]. *)
Definition layout (ds : string) (decpt : Z) : string :=
  let nd := Z.of_nat (String.length ds) in
  if ((decpt <=? -4) || (16 <? decpt))%Z then
    let ex := (decpt - 1)%Z in
    let mant :=
      if (nd =? 1)%Z then ds
      else String.substring 0 1 ds +:+ "." +:+ substring_from 1 ds in
    let es := digits_of (Z.abs ex) in
    mant +:+ "e" +:+ (if (ex <? 0)%Z then "-" else "+")
         +:+ (if Nat.ltb (String.length es) 2 then "0" +:+ es else es)
  else if (decpt <=? 0)%Z then
    "0." +:+ zeros (Z.to_nat (- decpt)) +:+ ds
  else if (nd <=? decpt)%Z then
    ds +:+ zeros (Z.to_nat (decpt - nd)) +:+ ".0"
  else
    String.substring 0 (Z.to_nat decpt) ds +:+ "." +:+ substring_from (Z.to_nat decpt) ds.

Definition repr (x : spec_float) : string :=
  match x with
  | S754_zero s => if s then "-0.0" else "0.0"
  | S754_infinity s => if s then "-inf" else "inf"
  | S754_nan => "nan"
  | S754_finite s m e =>
      let '(n, d) := exact m e in
      let k := log10_floor n d in
      let c := strip_zeros 17 (shortest 17 1 (S754_finite false m e) n d k) in
      let ds := digits_of (fst c) in
      let decpt := (snd c + Z.of_nat (String.length ds))%Z in
      (if s then "-" else "") +:+ layout ds decpt
  end.

End Binary64.

#[export] Instance binary64 : PyFloat spec_float := {|
  fzero := S754_zero false;
  fadd := Binary64.add;
  fmul := Binary64.mul;
  of_int := Binary64.of_int;
  fdec := Binary64.dec;
  round2 := Binary64.round_2;
  fnonzero := Binary64.nonzero;
  float_of_string := Binary64.of_string;
|}.


(* ------------------------------------------------------------------ *)
(** ** Exceptions and outcomes *)

(** The exceptions a handler meets: FastAPI's [HTTPException], and every
    other [Exception] with its message. *)
Inductive exn :=
| HTTPException (status_code : Z) (detail : string)
| Error (msg : string).

(** [str(e)] *)
Definition exn_str (e : exn) : string :=
  match e with
  | HTTPException code detail =>
      NilZero.string_of_int (Z.to_int code) +:+ ": " +:+ detail
  | Error msg => msg
  end.

(** How a call ends.  For a handler, [Return body] is the body FastAPI
    sends with status 200, [Raise (HTTPException c d)] is answered with
    status [c] and detail [d], and any other exception is a server error. *)
Inductive result (A : Type) :=
| Return (a : A)
| Raise (e : exn).
Arguments Return {A} a.
Arguments Raise {A} e.

(* ------------------------------------------------------------------ *)
(** ** Values, documents, schemas, the store and the handlers *)

Section EggStore.

Context {num : Type} `{PyFloat num}.

(** The Python objects that appear in documents and JSON bodies. *)
Inductive value :=
| VNone
| VBool (b : bool)
| VInt (z : Z)
| VFloat (f : num)
| VStr (s : string)
| VOid (o : ObjectId)
| VList (l : list value)
| VDoc (d : gmap string value).

(** A Python [dict] with string keys. *)
Abbreviation document := (gmap string value).

(** [bool(v)] *)
Definition truthy (v : value) : bool :=
  match v with
  | VNone => false
  | VBool b => b
  | VInt z => negb (z =? 0)%Z
  | VFloat f => fnonzero f
  | VStr s => negb (String.eqb s "")
  | VOid _ => true
  | VList l => negb (Nat.eqb (length l) 0)
  | VDoc d => negb (Nat.eqb (size d) 0)
  end.

(** [d.get(k)] and [d.get(k, dflt)] *)
Definition dict_get (d : document) (k : string) : value := default VNone (d !! k).
Definition dict_get_or (d : document) (k : string) (dflt : value) : value :=
  default dflt (d !! k).

(** [float(v)]; [None] when it raises. *)
Definition py_float (v : value) : option num :=
  match v with
  | VFloat f => Some f
  | VInt z => of_int z
  | VBool b => of_int (if b then 1 else 0)
  | VStr s => float_of_string s
  | _ => None
  end.

(** Python's builtin [str] on a value. *)
Variable py_str : value -> string.

(* ------------------------------------------------------------------ *)
(** *** schemas.py *)

(** Modelled from the spec: schemas.py is not among the sources.  The three
    records carry the fields the data model lists for Product, OrderItem and
    Order. *)
Record Product := {
  title : string;
  description : string;
  price : num;
  category : string;
  in_stock : bool;
  image : string;
}.

Record OrderItem := {
  item_product_id : string;
  item_title : string;
  item_price : num;
  item_quantity : Z;
  item_subtotal : num;
}.

Record Order := {
  items : list OrderItem;
  customer_name : string;
  email : string;
  address : string;
  payment_method : string;
  total_amount : num;
  status : string;
}.

(** [p.model_dump()] *)
Definition Product_model_dump (p : Product) : document :=
  <["title" := VStr (title p)]>
  (<["description" := VStr (description p)]>
  (<["price" := VFloat (price p)]>
  (<["category" := VStr (category p)]>
  (<["in_stock" := VBool (in_stock p)]>
  (<["image" := VStr (image p)]> ∅))))).

Definition OrderItem_model_dump (i : OrderItem) : document :=
  <["product_id" := VStr (item_product_id i)]>
  (<["title" := VStr (item_title i)]>
  (<["price" := VFloat (item_price i)]>
  (<["quantity" := VInt (item_quantity i)]>
  (<["subtotal" := VFloat (item_subtotal i)]> ∅)))).

Definition Order_model_dump (o : Order) : document :=
  <["items" := VList (map (fun i => VDoc (OrderItem_model_dump i)) (items o))]>
  (<["customer_name" := VStr (customer_name o)]>
  (<["email" := VStr (email o)]>
  (<["address" := VStr (address o)]>
  (<["payment_method" := VStr (payment_method o)]>
  (<["total_amount" := VFloat (total_amount o)]>
  (<["status" := VStr (status o)]> ∅)))))).

(* ------------------------------------------------------------------ *)
(** *** The request models of main.py *)

(** [quantity: int = Field(ge=1)]: FastAPI hands the handler validated
    payloads only, so a quantity is a positive integer. *)
Record OrderItemInput := {
  product_id : string;
  quantity : positive;
}.

Record CreateOrderInput := {
  in_items : list OrderItemInput;
  in_customer_name : string;
  in_email : string;
  in_address : string;
  in_payment_method : string;
}.

(* ------------------------------------------------------------------ *)
(** *** The database and the world *)

(** The calls main.py (and database.py on its behalf) issues to the driver. *)
Inductive Call :=
| CountDocuments (c : string)
| InsertOne (c : string) (doc : document)
| Find (c : string)
| FindOne (c : string) (o : ObjectId)
| ListCollectionNames.

(** A database: its collections in natural (insertion) order, each stored
    document under the ObjectId the store assigned to it; the next ObjectId
    the driver generates; the outage schedule; the trace of calls. *)
Record Database := {
  db_name : string;
  contents : gmap string (list (ObjectId * document));
  next_oid : N;
  outage : nat -> option string;
  calls : list Call;
}.

(** The process: the global [db] of database.py ([None] when the store is
    not configured) and [os.environ]. *)
Record World := {
  db : option Database;
  environ : gmap string string;
}.

Definition collection (d : Database) (c : string) : list (ObjectId * document) :=
  default [] (contents d !! c).

(** A stored document as the driver returns it. *)
Definition returned (e : ObjectId * document) : document :=
  <["_id" := VOid (fst e)]> (snd e).

Definition find_by_id (l : list (ObjectId * document)) (o : ObjectId) : option document :=
  returned <$> List.find (fun e => oid_eqb (fst e) o) l.

(* ------------------------------------------------------------------ *)
(** *** The handler monad *)

Definition M (A : Type) : Type := World -> result A * World.

Definition ret {A : Type} (a : A) : M A := fun w => (Return a, w).

Definition raise {A : Type} (e : exn) : M A := fun w => (Raise e, w).

Definition bind {A B : Type} (m : M A) (k : A -> M B) : M B := fun w =>
  match m w with
  | (Return a, w') => k a w'
  | (Raise e, w') => (Raise e, w')
  end.

(** [try: m  except Exception as e: handler e] *)
Definition try_except {A : Type} (m : M A) (handler : exn -> M A) : M A := fun w =>
  match m w with
  | (Return a, w') => (Return a, w')
  | (Raise e, w') => handler e w'
  end.

Notation "x <- m ;; k" := (bind m (fun x => k))
  (at level 100, m at next level, right associativity).
Notation "m ;;; k" := (bind m (fun _ => k))
  (at level 100, right associativity).

(** The global [db] of database.py, as [db is None] tests it. *)
Definition get_db : M (option Database) := fun w => (Return (db w), w).

(** [os.getenv(k)] *)
Definition getenv (k : string) : M (option string) := fun w => (Return (environ w !! k), w).

Definition record_call (c : Call) (d : Database) : Database :=
  {| db_name := db_name d; contents := contents d; next_oid := next_oid d;
     outage := outage d; calls := calls d ++ [c] |}.

(** One call to the driver: it is recorded, raises if the schedule says so,
    and otherwise runs on the database. *)
Definition driver_call {A : Type} (c : Call) (run : Database -> A * Database) : M A := fun w =>
  match db w with
  | None => (Raise (Error "'NoneType' object is not subscriptable"), w)
  | Some d =>
      let d1 := record_call c d in
      match outage d (length (calls d)) with
      | Some msg => (Raise (Error msg), {| db := Some d1; environ := environ w |})
      | None =>
          let '(a, d2) := run d1 in
          (Return a, {| db := Some d2; environ := environ w |})
      end
  end.

(** [db[c].count_documents({})] *)
Definition count_documents (c : string) : M Z :=
  driver_call (CountDocuments c) (fun d => (Z.of_nat (length (collection d c)), d)).

(** [db[c].insert_one(doc)]: the driver assigns a fresh ObjectId. *)
Definition insert_one (c : string) (doc : document) : M ObjectId :=
  driver_call (InsertOne c doc) (fun d =>
    let o := generated (next_oid d) in
    (o, {| db_name := db_name d;
           contents := <[c := collection d c ++ [(o, doc)]]> (contents d);
           next_oid := (next_oid d + 1)%N;
           outage := outage d;
           calls := calls d |})).

(** [list(db[c].find({}))] *)
Definition find (c : string) : M (list document) :=
  driver_call (Find c) (fun d => (map returned (collection d c), d)).

(** [db[c].find_one({"_id": o})] *)
Definition find_one (c : string) (o : ObjectId) : M (option document) :=
  driver_call (FindOne c o) (fun d => (find_by_id (collection d c) o, d)).

(** [db.list_collection_names()] *)
Definition list_collection_names : M (list string) :=
  driver_call ListCollectionNames (fun d => (map fst (map_to_list (contents d)), d)).

(** [ObjectId(s)] *)
Definition ObjectId_ (s : string) : M ObjectId :=
  match ObjectId_of_str s with
  | Some o => ret o
  | None => raise (Error (s +:+ " is not a valid ObjectId"))
  end.

(* ------------------------------------------------------------------ *)
(** *** database.py *)

(** Modelled from the spec: database.create_document is not among the
    sources.  It persists the model in the named collection and returns the
    new identifier as a string; without a database handle it raises. *)
Definition create_document (collection_name : string) (data : Order) : M string :=
  d <- get_db ;;
  match d with
  | None => raise (Error "Database not available")
  | Some _ =>
      o <- insert_one collection_name (Order_model_dump data) ;;
      ret (oid_str o)
  end.

(* ------------------------------------------------------------------ *)
(** *** main.py: helpers *)

(** [to_str_id] on the contents of the dictionary. *)
Definition to_str_id (doc : document) : document :=
  let d := doc in
  if truthy (dict_get d "_id") then
    <["id" := VStr (py_str (dict_get d "_id"))]> (delete "_id" d)
  else d.

(** Dictionaries are objects: a heap holds them, a reference is an index
    into it, and [copy], [pop] and item assignment act on the heap. *)
Definition heap_get (h : list document) (l : nat) : document := default ∅ (h !! l).

Definition dict_copy (l : nat) (h : list document) : nat * list document :=
  (length h, h ++ [heap_get h l]).

Definition dict_pop (l : nat) (k : string) (h : list document) : value * list document :=
  (dict_get (heap_get h l) k, <[l := delete k (heap_get h l)]> h).

Definition dict_setitem (l : nat) (k : string) (v : value) (h : list document) : list document :=
  <[l := <[k := v]> (heap_get h l)]> h.

(** [to_str_id] on references, statement by statement. *)
Definition to_str_id_heap (doc : nat) (h : list document) : nat * list document :=
  let '(d, h1) := dict_copy doc h in
  if truthy (dict_get (heap_get h1 d) "_id") then
    let '(v, h2) := dict_pop d "_id" h1 in
    (d, dict_setitem d "id" (VStr (py_str v)) h2)
  else (d, h1).

Definition sample_products : list Product := [
  {| title := "Free-Range Eggs (12 pcs)";
     description := "Fresh farm free-range chicken eggs. Rich yolks and great taste.";
     price := fdec 499 2;
     category := "chicken";
     in_stock := true;
     image := "https://images.unsplash.com/photo-1517959105821-eaf2591984dd?q=80&w=1200&auto=format&fit=crop" |};
  {| title := "Organic Eggs (12 pcs)";
     description := "Certified organic eggs from pasture-raised hens.";
     price := fdec 599 2;
     category := "organic";
     in_stock := true;
     image := "https://images.unsplash.com/photo-1518806118471-f28b20a1d79d?q=80&w=1200&auto=format&fit=crop" |};
  {| title := "Omega-3 Enriched Eggs (12 pcs)";
     description := "Omega-3 enriched for a healthier choice.";
     price := fdec 649 2;
     category := "enriched";
     in_stock := true;
     image := "https://images.unsplash.com/photo-1522335789203-aabd1fc54bc9?q=80&w=1200&auto=format&fit=crop" |};
  {| title := "Quail Eggs (24 pcs)";
     description := "Delicate and delicious quail eggs.";
     price := fdec 749 2;
     category := "quail";
     in_stock := true;
     image := "https://images.unsplash.com/photo-1577208288347-0d412b7a4f35?q=80&w=1200&auto=format&fit=crop" |};
  {| title := "Duck Eggs (6 pcs)";
     description := "Large and rich duck eggs for special recipes.";
     price := fdec 449 2;
     category := "duck";
     in_stock := true;
     image := "https://images.unsplash.com/photo-1517957741781-7f3fd1563bb3?q=80&w=1200&auto=format&fit=crop" |}
].

(** [for x in l: body x] *)
Fixpoint for_each {A : Type} (l : list A) (body : A -> M unit) : M unit :=
  match l with
  | [] => ret tt
  | x :: l' => body x ;;; for_each l' body
  end.

Definition seed_products : M unit :=
  d <- get_db ;;
  match d with
  | None => ret tt
  | Some _ =>
      count <- count_documents "product" ;;
      if (0 <? count)%Z then ret tt
      else
        for_each sample_products (fun p =>
          _ <- insert_one "product" (Product_model_dump p) ;; ret tt)
  end.

(** The module body calls [seed_products()] once, when the process starts. *)
Definition startup : M unit := seed_products.

(* ------------------------------------------------------------------ *)
(** *** main.py: routes *)

Definition read_root : M document :=
  ret (<["message" := VStr "Egg Store Backend is running"]> ∅).

Definition demo_product : document :=
  <["id" := VStr "0"]>
  (<["title" := VStr "Free-Range Eggs (12 pcs)"]>
  (<["description" := VStr "Fresh farm free-range chicken eggs. Rich yolks and great taste."]>
  (<["price" := VFloat (fdec 499 2)]>
  (<["category" := VStr "chicken"]>
  (<["in_stock" := VBool true]>
  (<["image" := VStr "https://images.unsplash.com/photo-1517959105821-eaf2591984dd?q=80&w=1200&auto=format&fit=crop"]> ∅)))))).

Definition list_products : M (list document) :=
  d <- get_db ;;
  match d with
  | None => ret [demo_product]
  | Some _ =>
      products <- find "product" ;;
      ret (map to_str_id products)
  end.

(** The lookup of one product: [InvalidId] and driver errors alike leave
    [prod = None]. *)
Definition lookup_product (pid : string) : M (option document) :=
  try_except
    (o <- ObjectId_ pid ;; find_one "product" o)
    (fun _ => ret None).

(** [not prod] *)
Definition not_prod (prod : option document) : bool :=
  match prod with
  | None => true
  | Some p => Nat.eqb (size p) 0
  end.

(** Modelled from the spec: the constructor of schemas.OrderItem; [title]
    is a string field. *)
Definition OrderItem_ (pid : string) (ttl : value) (prc : num) (qty : Z) (sub : num)
  : M OrderItem :=
  match ttl with
  | VStr t =>
      ret {| item_product_id := pid; item_title := t; item_price := prc;
             item_quantity := qty; item_subtotal := sub |}
  | _ => raise (Error "1 validation error for OrderItem")
  end.

(** The price and title of one input item. *)
Definition price_and_title (it : OrderItemInput) : M (num * value) :=
  d <- get_db ;;
  match d with
  | None => ret (fdec 499 2, VStr "Free-Range Eggs (12 pcs)")
  | Some _ =>
      prod <- lookup_product (product_id it) ;;
      if not_prod prod then
        raise (HTTPException 404 ("Product not found: " +:+ product_id it))
      else
        let p := default ∅ prod in
        match py_float (dict_get_or p "price" (VInt 0)) with
        | None => raise (Error "float() argument must be a string or a real number")
        | Some prc => ret (prc, dict_get_or p "title" (VStr "Eggs"))
        end
  end.

(** The loop of [create_order] over [payload.items], with its two
    accumulators.  [price * it.quantity] converts the quantity to float
    first, and raises when it is too large. *)
Fixpoint build_items (its : list OrderItemInput) (acc : list OrderItem) (total : num)
  : M (list OrderItem * num) :=
  match its with
  | [] => ret (acc, total)
  | it :: rest =>
      pt <- price_and_title it ;;
      let '(prc, ttl) := pt in
      match of_int (Z.pos (quantity it)) with
      | None => raise (Error "int too large to convert to float")
      | Some qty =>
          let subtotal := fmul prc qty in
          let total := fadd total subtotal in
          item <- OrderItem_ (product_id it) ttl prc (Z.pos (quantity it)) subtotal ;;
          build_items rest (acc ++ [item]) total
      end
  end.

Definition create_order (payload : CreateOrderInput) : M document :=
  match in_items payload with
  | [] => raise (HTTPException 400 "No items in order")
  | _ =>
      built <- build_items (in_items payload) [] fzero ;;
      let '(itms, total) := built in
      let stat :=
        if String.eqb (in_payment_method payload) "card" then "paid" else "pending" in
      let order_model :=
        {| items := itms;
           customer_name := in_customer_name payload;
           email := in_email payload;
           address := in_address payload;
           payment_method :=
             if bool_decide (in_payment_method payload ∈ ["card"; "cod"])
             then in_payment_method payload else "card";
           total_amount := round2 total;
           status := stat |} in
      order_id <- try_except
                    (create_document "order" order_model)
                    (fun _ => ret "demo-order-id") ;;
      ret (<["order_id" := VStr order_id]>
          (<["status" := VStr stat]>
          (<["total" := VFloat (round2 total)]> ∅)))
  end.

(** [os.getenv(k)] as a condition. *)
Definition env_set (v : option string) : bool :=
  match v with
  | Some s => negb (String.eqb s "")
  | None => false
  end.

(** The outer handler of [test_database] guards statements that cannot
    raise here; it is kept as the source has it. *)
Definition test_database : M document :=
  let response : document :=
    <["backend" := VStr "✅ Running"]>
    (<["database" := VStr "❌ Not Available"]>
    (<["database_url" := VNone]>
    (<["database_name" := VNone]>
    (<["connection_status" := VStr "Not Connected"]>
    (<["collections" := VList []]> ∅))))) in
  response <-
    try_except
      (d <- get_db ;;
       match d with
       | Some d0 =>
           let response := <["database" := VStr "✅ Available"]> response in
           let response := <["database_url" := VStr "✅ Configured"]> response in
           let response := <["database_name" := VStr (db_name d0)]> response in
           let response := <["connection_status" := VStr "Connected"]> response in
           try_except
             (collections <- list_collection_names ;;
              let response :=
                <["collections" := VList (map VStr (take 10 collections))]> response in
              ret (<["database" := VStr "✅ Connected & Working"]> response))
             (fun e =>
                ret (<["database" :=
                        VStr ("⚠️  Connected but Error: " +:+ py_prefix 50 (exn_str e))]>
                     response))
       | None =>
           ret (<["database" := VStr "⚠️  Available but not initialized"]> response)
       end)
      (fun e =>
         ret (<["database" := VStr ("❌ Error: " +:+ py_prefix 50 (exn_str e))]> response)) ;;
  url <- getenv "DATABASE_URL" ;;
  let response :=
    <["database_url" := VStr (if env_set url then "✅ Set" else "❌ Not Set")]> response in
  nm <- getenv "DATABASE_NAME" ;;
  let response :=
    <["database_name" := VStr (if env_set nm then "✅ Set" else "❌ Not Set")]> response in
  ret response.

(* ------------------------------------------------------------------ *)
(** *** Vocabulary of the statements *)

(** The number of driver calls issued so far. *)
Definition ncalls (w : World) : nat :=
  match db w with
  | Some d => length (calls d)
  | None => O
  end.

(** The world after the calls [cs] were recorded and nothing else changed. *)
Definition log (cs : list Call) (w : World) : World :=
  match db w with
  | None => w
  | Some d =>
      {| db := Some {| db_name := db_name d; contents := contents d;
                       next_oid := next_oid d; outage := outage d;
                       calls := calls d ++ cs |};
         environ := environ w |}
  end.

(** The world after [insert_one] stored [doc] in collection [c]. *)
Definition inserted (c : string) (doc : document) (w : World) : World :=
  match db w with
  | None => w
  | Some d =>
      {| db := Some {| db_name := db_name d;
                       contents :=
                         <[c := collection d c ++ [(generated (next_oid d), doc)]]> (contents d);
                       next_oid := (next_oid d + 1)%N;
                       outage := outage d;
                       calls := calls d ++ [InsertOne c doc] |};
         environ := environ w |}
  end.

(** The world after the products [ps] were inserted one after the other. *)
Definition stored_all (ps : list Product) (w : World) : World :=
  fold_left (fun w p => inserted "product" (Product_model_dump p) w) ps w.

(** What is stored: the documents of a collection, and everything that
    persists apart from the trace of calls. *)
Definition stored (w : World) (c : string) : list (ObjectId * document) :=
  match db w with
  | Some d => collection d c
  | None => []
  end.

Definition same_store (w w' : World) : Prop :=
  environ w' = environ w /\
  match db w, db w' with
  | None, None => True
  | Some d, Some d' =>
      db_name d' = db_name d /\ contents d' = contents d /\
      next_oid d' = next_oid d /\ outage d' = outage d
  | _, _ => False
  end.

(** The documents a request added to collection [c]. *)
Definition added (w w' : World) (c : string) : list (ObjectId * document) :=
  drop (length (stored w c)) (stored w' c).

(** The driver calls a request issued. *)
Definition issued (w w' : World) : list Call :=
  match db w, db w' with
  | Some d, Some d' => drop (length (calls d)) (calls d')
  | _, _ => []
  end.

(** The driver calls of the lookup of [pid]: none for a malformed id. *)
Definition lookup_calls (pid : string) : list Call :=
  match ObjectId_of_str pid with
  | Some o => [FindOne "product" o]
  | None => []
  end.

(** The product [pid] refers to in the store, if any. *)
Definition stored_product (d : Database) (pid : string) : option document :=
  match ObjectId_of_str pid with
  | Some o => find_by_id (collection d "product") o
  | None => None
  end.

(** What the lookup of [pid] yields when it is driver call number [k]. *)
Definition resolve (d : Database) (k : nat) (pid : string) : option document :=
  match ObjectId_of_str pid, outage d k with
  | Some o, None => find_by_id (collection d "product") o
  | _, _ => None
  end.

(** The price and title [create_order] takes from a product document, when
    the price converts to a float and the title is a string. *)
Definition priced (p : document) : option (num * string) :=
  match py_float (dict_get_or p "price" (VInt 0)), dict_get_or p "title" (VStr "Eggs") with
  | Some prc, VStr t => Some (prc, t)
  | _, _ => None
  end.

(** Every stored product has a usable price and title. *)
Definition products_usable (d : Database) : Prop :=
  Forall (fun e => is_Some (priced (returned e))) (collection d "product").

(** One line of an order as the loop computes it: the price and title of
    the product, and the quantity as a float. *)
Record Line := {
  line_price : num;
  line_title : string;
  line_quantity : num;
}.

(** The price and title an item takes when its lookup is call [k]: the
    fallback without a database handle, the found product's otherwise. *)
Definition price_title_of (w : World) (k : nat) (it : OrderItemInput)
  : option (num * string) :=
  match db w with
  | None => Some (fdec 499 2, "Free-Range Eggs (12 pcs)")
  | Some d =>
      match resolve d k (product_id it) with
      | Some p => priced p
      | None => None
      end
  end.

(** The line an item resolves to when its lookup is call [k]: its product
    is found with a usable price and title, and its quantity converts to
    float. *)
Definition resolved (w : World) (k : nat) (it : OrderItemInput) : option Line :=
  match price_title_of w k it, of_int (Z.pos (quantity it)) with
  | Some pt, Some qty =>
      Some {| line_price := fst pt; line_title := snd pt; line_quantity := qty |}
  | _, _ => None
  end.


(** All of [its] resolve, the first lookup being call [k]. *)
Fixpoint resolved_all (w : World) (k : nat) (its : list OrderItemInput)
  : option (list Line) :=
  match its with
  | [] => Some []
  | it :: rest =>
      match resolved w k it, resolved_all w (S k) rest with
      | Some l, Some ls => Some (l :: ls)
      | _, _ => None
      end
  end.

(** The float sum of the loop: from [0.0], left to right. *)
Definition fsum (xs : list num) : num := fold_left fadd xs fzero.

(** [price * quantity] of one line. *)
Definition amount (l : Line) : num := fmul (line_price l) (line_quantity l).

Definition item_of (it : OrderItemInput) (l : Line) : OrderItem :=
  {| item_product_id := product_id it; item_title := line_title l;
     item_price := line_price l;
     item_quantity := Z.pos (quantity it); item_subtotal := amount l |}.

(** The values [create_order] builds once the loop is over: the status, the
    order model and the JSON body. *)
Definition order_status (payload : CreateOrderInput) : string :=
  if String.eqb (in_payment_method payload) "card" then "paid" else "pending".

Definition order_model (payload : CreateOrderInput) (itms : list OrderItem) (total : num)
  : Order :=
  {| items := itms;
     customer_name := in_customer_name payload;
     email := in_email payload;
     address := in_address payload;
     payment_method :=
       if bool_decide (in_payment_method payload ∈ ["card"; "cod"])
       then in_payment_method payload else "card";
     total_amount := round2 total;
     status := order_status payload |}.

Definition order_response (order_id stat : string) (total : num) : document :=
  <["order_id" := VStr order_id]>
  (<["status" := VStr stat]>
  (<["total" := VFloat (round2 total)]> ∅)).

(** The status strings [test_database] defines for its [database] field. *)
Definition database_status (s : string) : Prop :=
  s = "❌ Not Available" \/
  s = "✅ Available" \/
  s = "✅ Connected & Working" \/
  s = "⚠️  Available but not initialized" \/
  (exists m, s = "⚠️  Connected but Error: " +:+ m /\ py_len m <= 50) \/
  (exists m, s = "❌ Error: " +:+ m /\ py_len m <= 50).

End EggStore.

(* ------------------------------------------------------------------ *)
(** ** Python's [str] and [repr] on binary64 values *)

Module Builtins.

(** [repr] of a string: quoted, with the quote, the backslash and control
    characters escaped.  Bytes of non-ASCII characters are kept. *)
Definition hex2 (n : N) : string :=
  String (hex_digit (n / 16)%N) (String (hex_digit (n mod 16)%N) "").

Fixpoint repr_chars (q : ascii) (s : string) : string :=
  match s with
  | EmptyString => ""
  | String c s' =>
      let n := N_of_ascii c in
      (if Ascii.eqb c q then String "\" (String c "")
       else if (n =? 92)%N then "\\"
       else if (n =? 10)%N then "\n"
       else if (n =? 13)%N then "\r"
       else if (n =? 9)%N then "\t"
       else if ((n <? 32) || (n =? 127))%N then "\x" +:+ hex2 n
       else String c "") +:+ repr_chars q s'
  end.

Fixpoint has_char (c : ascii) (s : string) : bool :=
  match s with
  | EmptyString => false
  | String c' s' => Ascii.eqb c c' || has_char c s'
  end.

Definition double_quote : ascii := ascii_of_N 34.

Definition repr_str (s : string) : string :=
  let q : ascii :=
    if has_char "'" s && negb (has_char double_quote s) then double_quote else "'"%char in
  String q (repr_chars q s +:+ String q "").

Fixpoint join (sep : string) (l : list string) : string :=
  match l with
  | [] => ""
  | [x] => x
  | x :: l' => x +:+ sep +:+ join sep l'
  end.

(** [repr(v)].  A dictionary is written with its keys in the order of the
    map, which need not be the order of insertion Python prints. *)
Fixpoint repr (v : @value spec_float) : string :=
  match v with
  | VNone => "None"
  | VBool b => if b then "True" else "False"
  | VInt z => Binary64.digits_of z
  | VFloat f => Binary64.repr f
  | VStr s => repr_str s
  | VOid o => "ObjectId('" +:+ oid_str o +:+ "')"
  | VList l => "[" +:+ join ", " (map repr l) +:+ "]"
  | VDoc d =>
      "{" +:+ join ", " (map (fun kv => repr_str (fst kv) +:+ ": " +:+ snd kv)
                             (map_to_list (repr <$> d))) +:+ "}"
  end.

(** [str(v)] *)
Definition str (v : @value spec_float) : string :=
  match v with
  | VStr s => s
  | VOid o => oid_str o
  | _ => repr v
  end.

End Builtins.

(* ------------------------------------------------------------------ *)
(** ** Concrete worlds and requests, on binary64 *)

Definition no_outage : nat -> option string := fun _ => None.

(** A configured database that holds nothing yet. *)
Definition empty_db : @Database spec_float :=
  {| db_name := "eggstore"; contents := ∅; next_oid := 1%N;
     outage := no_outage; calls := [] |}.

Definition fresh_world : @World spec_float := {| db := Some empty_db; environ := ∅ |}.

(** No database configured. *)
Definition no_db_world : @World spec_float := {| db := None; environ := ∅ |}.

(** The collections after the process started on [fresh_world]. *)
Definition seeded_contents : gmap string (list (ObjectId * gmap string (@value spec_float))) :=
  match db (snd (startup fresh_world)) with
  | Some d => contents d
  | None => ∅
  end.

(** A seeded database whose driver calls fail as [out] says. *)
Definition seeded_db (out : nat -> option string) : @Database spec_float :=
  {| db_name := "eggstore"; contents := seeded_contents; next_oid := 6%N;
     outage := out; calls := [] |}.

Definition seeded_world : @World spec_float :=
  {| db := Some (seeded_db no_outage); environ := ∅ |}.

(** The server cannot be reached: every driver call raises. *)
Definition unreachable : nat -> option string := fun _ => Some "connection refused".

Definition unreachable_world : @World spec_float :=
  {| db := Some (seeded_db unreachable); environ := ∅ |}.

(** Only the call number [n] raises. *)
Definition fails_at (n : nat) : nat -> option string :=
  fun k => if Nat.eqb k n then Some "not primary" else None.

Definition order_of (its : list (string * positive)) (method : string) : CreateOrderInput :=
  {| in_items := map (fun x => {| product_id := fst x; quantity := snd x |}) its;
     in_customer_name := "Ada";
     in_email := "ada@example.org";
     in_address := "1 Hen Lane";
     in_payment_method := method |}.

(** The ids of the first two seeded products, and two strings that refer to
    no product: one malformed, one well-formed but unknown. *)
Definition free_range_id : string := "000000000000000000000001".
Definition organic_id : string := "000000000000000000000002".
Definition malformed_id : string := "not-an-id".
Definition unknown_id : string := "0000000000000000000000ff".

(** Three boxes of free-range eggs and one of organic eggs. *)
Definition two_lines_order (method : string) : CreateOrderInput :=
  order_of [(free_range_id, 3%positive); (organic_id, 1%positive)] method.

Definition two_lines : list (@Line spec_float) :=
  [{| line_price := fdec 499 2; line_title := "Free-Range Eggs (12 pcs)";
      line_quantity := Binary64.of_Z 3 |};
   {| line_price := fdec 599 2; line_title := "Organic Eggs (12 pcs)";
      line_quantity := Binary64.of_Z 1 |}].

(** An order whose second and third items refer to no product. *)
Definition free_range_item : OrderItemInput :=
  {| product_id := free_range_id; quantity := 1%positive |}.
Definition malformed_item : OrderItemInput :=
  {| product_id := malformed_id; quantity := 2%positive |}.
Definition unknown_item : OrderItemInput :=
  {| product_id := unknown_id; quantity := 1%positive |}.

Definition broken_order : CreateOrderInput :=
  {| in_items := [free_range_item; malformed_item; unknown_item];
     in_customer_name := "Ada";
     in_email := "ada@example.org";
     in_address := "1 Hen Lane";
     in_payment_method := "card" |}.

(** One box of organic eggs. *)
Definition organic_order : CreateOrderInput := order_of [(organic_id, 1%positive)] "card".

Definition organic_line : @Line spec_float :=
  {| line_price := fdec 599 2; line_title := "Organic Eggs (12 pcs)";
     line_quantity := Binary64.of_Z 1 |}.

Definition free_range_line : @Line spec_float :=
  {| line_price := fdec 499 2; line_title := "Free-Range Eggs (12 pcs)";
     line_quantity := Binary64.of_Z 1 |}.

(** One box of each. *)
Definition two_boxes_order : CreateOrderInput :=
  order_of [(free_range_id, 1%positive); (organic_id, 1%positive)] "card".

(** A quantity that [Field(ge=1)] admits and no float holds. *)
Definition huge : positive := Z.to_pos (10 ^ 400).

(** One line of free-range eggs in that quantity. *)
Definition huge_order : CreateOrderInput := order_of [(free_range_id, huge)] "card".


(** A string of 24 characters that [bytes.fromhex] reads as 11 bytes. *)
Definition spaced_id : string := "0000000000 000000 000001".

(** The store whose insert of the order fails, after one lookup. *)
Definition insert_fails_world : @World spec_float :=
  {| db := Some (seeded_db (fails_at 1)); environ := ∅ |}.

(** The answer to [two_lines_order "card"] on the seeded store, and the
    world after it. *)
Definition two_lines_response : gmap string (@value spec_float) :=
  match fst (create_order (two_lines_order "card") seeded_world) with
  | Return r => r
  | Raise _ => ∅
  end.

Definition two_lines_world : @World spec_float :=
  snd (create_order (two_lines_order "card") seeded_world).

(** A dictionary object on a heap of one. *)
Definition one_document : gmap string (@value spec_float) :=
  <["_id" := VOid (generated 1)]> (<["title" := VStr "Duck Eggs (6 pcs)"]> ∅).

(** An empty store whose fourth driver call raises: the count and two
    inserts succeed, the third insert fails. *)
Definition flaky_db : @Database spec_float :=
  {| db_name := "eggstore"; contents := ∅; next_oid := 1%N;
     outage := fails_at 3; calls := [] |}.

Definition flaky_world : @World spec_float := {| db := Some flaky_db; environ := ∅ |}.

(** A store written by hand: one product whose price is null, and one with
    neither price nor title. *)
Definition unpriced_product : gmap string (@value spec_float) :=
  <["title" := VStr "Mystery Eggs"]> (<["price" := VNone]> ∅).

Definition bare_product : gmap string (@value spec_float) :=
  <["category" := VStr "misc"]> ∅.

Definition odd_db : @Database spec_float :=
  {| db_name := "eggstore";
     contents := <["product" := [(generated 1, unpriced_product);
                                 (generated 2, bare_product)] ]> ∅;
     next_oid := 3%N; outage := no_outage; calls := [] |}.

Definition odd_world : @World spec_float := {| db := Some odd_db; environ := ∅ |}.

(** The first seeded product as the store holds it. *)
Definition free_range_entry : ObjectId * gmap string (@value spec_float) :=
  (generated 1,
   Product_model_dump
     {| title := "Free-Range Eggs (12 pcs)";
        description := "Fresh farm free-range chicken eggs. Rich yolks and great taste.";
        price := fdec 499 2;
        category := "chicken";
        in_stock := true;
        image := "https://images.unsplash.com/photo-1517959105821-eaf2591984dd?q=80&w=1200&auto=format&fit=crop" |}).

(* ------------------------------------------------------------------ *)
(** ** Properties *)

Section Properties.

Context {num : Type} `{PyFloat num}.
Variable py_str : @value num -> string.

Local Abbreviation document := (gmap string (@value num)).

Local Notation "x <- m ;; k" := (bind m (fun x => k))
  (at level 100, m at next level, right associativity).

(** *** Text *)

Lemma py_len_prefix (n : nat) (s : string) : py_len (py_prefix n s) <= n.
Proof.
  revert n. induction s as [|c s IH]; intros n; simpl; [lia|].
  destruct (utf8_continuation c) eqn:Hc; simpl; rewrite ?Hc.
  - apply IH.
  - destruct n as [|n]; simpl; rewrite ?Hc; [lia|].
    specialize (IH n). lia.
Qed.

(** *** The trace *)

Lemma log_nil (w : @World num) : log [] w = w.
Proof.
  destruct w as [[d|] e]; unfold log; simpl; [|reflexivity].
  destruct d; simpl. rewrite app_nil_r. reflexivity.
Qed.

Lemma log_log (cs cs' : list Call) (w : @World num) :
  log cs' (log cs w) = log (cs ++ cs') w.
Proof.
  destruct w as [[d|] e]; unfold log; simpl; [|reflexivity].
  rewrite app_assoc. reflexivity.
Qed.

Lemma db_log_none (cs : list Call) (w : @World num) :
  db w = None -> log cs w = w.
Proof. intros Hdb. unfold log. rewrite Hdb. reflexivity. Qed.

Lemma db_log_some (cs : list Call) (w : @World num) (d : Database) :
  db w = Some d ->
  db (log cs w) =
    Some {| db_name := db_name d; contents := contents d; next_oid := next_oid d;
            outage := outage d; calls := calls d ++ cs |}.
Proof. intros Hdb. unfold log. rewrite Hdb. reflexivity. Qed.

Lemma ncalls_log (cs : list Call) (w : @World num) (d : Database) :
  db w = Some d -> ncalls (log cs w) = ncalls w + length cs.
Proof.
  intros Hdb. unfold ncalls. rewrite (db_log_some cs w d Hdb), Hdb. simpl.
  rewrite length_app. reflexivity.
Qed.

Lemma same_store_log (cs : list Call) (w : @World num) : same_store w (log cs w).
Proof.
  destruct w as [[d|] e]; unfold same_store, log; simpl; auto.
Qed.

Lemma stored_log (cs : list Call) (w : @World num) (c : string) :
  stored (log cs w) c = stored w c.
Proof. destruct w as [[d|] e]; reflexivity. Qed.

Lemma issued_log (cs : list Call) (w : @World num) (d : Database) :
  db w = Some d -> issued w (log cs w) = cs.
Proof.
  intros Hdb. unfold issued. rewrite (db_log_some cs w d Hdb), Hdb. simpl.
  rewrite drop_app_length. reflexivity.
Qed.

Lemma resolved_log (cs : list Call) (w : @World num) (k : nat) (it : OrderItemInput) :
  resolved (log cs w) k it = resolved w k it.
Proof. destruct w as [[d|] e]; reflexivity. Qed.

Lemma resolved_all_log (cs : list Call) (w : @World num) (its : list OrderItemInput) (k : nat) :
  resolved_all (log cs w) k its = resolved_all w k its.
Proof.
  revert k. induction its as [|it its IH]; intros k; simpl; [reflexivity|].
  rewrite resolved_log, IH. reflexivity.
Qed.

Lemma resolved_all_no_db (w : @World num) (its : list OrderItemInput) (k k' : nat) :
  db w = None -> resolved_all w k its = resolved_all w k' its.
Proof.
  intros Hdb. revert k k'. induction its as [|it its IH]; intros k k'; simpl; [reflexivity|].
  unfold resolved, price_title_of. rewrite Hdb. rewrite (IH (S k) (S k')). reflexivity.
Qed.

Lemma resolved_all_length (w : @World num) (its : list OrderItemInput) (k : nat)
    (lines : list Line) :
  resolved_all w k its = Some lines -> length lines = length its.
Proof.
  revert k lines. induction its as [|it its IH]; intros k lines; simpl.
  - intros [= <-]. reflexivity.
  - destruct (resolved w k it); [|discriminate].
    destruct (resolved_all w (S k) its) eqn:E; [|discriminate].
    intros [= <-]. simpl. f_equal. eapply IH, E.
Qed.

(** *** Stored documents *)

Lemma returned_nonempty (e : ObjectId * document) : Nat.eqb (size (returned e)) 0 = false.
Proof.
  apply Nat.eqb_neq. intros Hs. apply map_size_empty_iff in Hs.
  unfold returned in Hs. exact (insert_non_empty _ _ _ Hs).
Qed.

Lemma find_by_id_returned (l : list (ObjectId * document)) (o : ObjectId) (p : document) :
  find_by_id l o = Some p -> exists e, e ∈ l /\ p = returned e.
Proof.
  unfold find_by_id. destruct (List.find _ l) as [e|] eqn:E; simpl; [|discriminate].
  intros [= <-]. exists e. split; [|reflexivity].
  apply List.find_some in E. apply list_elem_of_In, E.
Qed.

Lemma resolve_returned (d : Database) (k : nat) (pid : string) (p : document) :
  resolve d k pid = Some p -> exists e, e ∈ collection d "product" /\ p = returned e.
Proof.
  unfold resolve. destruct (ObjectId_of_str pid); [|discriminate].
  destruct (outage d k); [discriminate|]. apply find_by_id_returned.
Qed.


(** *** One item of the loop *)

Lemma price_and_title_no_db (w : @World num) (it : OrderItemInput) :
  db w = None ->
  price_and_title it w = (Return (fdec 499 2, VStr "Free-Range Eggs (12 pcs)"), w).
Proof.
  intros Hdb. unfold price_and_title, bind, get_db. rewrite Hdb. reflexivity.
Qed.

Lemma lookup_product_db (w : @World num) (d : Database) (pid : string) :
  db w = Some d ->
  lookup_product pid w = (Return (resolve d (length (calls d)) pid), log (lookup_calls pid) w).
Proof.
  intros Hdb. unfold lookup_product, try_except, bind, ObjectId_, resolve, lookup_calls.
  destruct (ObjectId_of_str pid) as [o|]; simpl.
  - unfold find_one, driver_call. rewrite Hdb.
    destruct (outage d (length (calls d))); simpl;
      unfold ret, log, record_call; rewrite Hdb; reflexivity.
  - unfold ret. rewrite log_nil. reflexivity.
Qed.

Lemma price_and_title_db (w : @World num) (d : Database) (it : OrderItemInput) :
  db w = Some d ->
  price_and_title it w =
    (match resolve d (length (calls d)) (product_id it) with
     | None => Raise (HTTPException 404 ("Product not found: " +:+ product_id it))
     | Some p =>
         match py_float (dict_get_or p "price" (VInt 0)) with
         | None => Raise (Error "float() argument must be a string or a real number")
         | Some prc => Return (prc, dict_get_or p "title" (VStr "Eggs"))
         end
     end, log (lookup_calls (product_id it)) w).
Proof.
  intros Hdb. unfold price_and_title, bind at 1. unfold get_db at 1. rewrite Hdb.
  unfold bind. rewrite (lookup_product_db w d _ Hdb).
  destruct (resolve d (length (calls d)) (product_id it)) as [p|] eqn:Hr; simpl.
  - destruct (resolve_returned _ _ _ _ Hr) as (e & _ & ->).
    rewrite returned_nonempty.
    destruct (py_float _); reflexivity.
  - reflexivity.
Qed.

(** An item that resolves contributes its line and issues its lookup. *)
Lemma price_and_title_resolved (w : @World num) (it : OrderItemInput) (l : Line) :
  resolved w (ncalls w) it = Some l ->
  price_and_title it w
    = (Return (line_price l, VStr (line_title l)), log (lookup_calls (product_id it)) w) /\
  of_int (Z.pos (quantity it)) = Some (line_quantity l).
Proof.
  unfold resolved, price_title_of, ncalls. destruct (db w) as [d|] eqn:Hdb.
  - rewrite (price_and_title_db w d it Hdb).
    destruct (resolve d (length (calls d)) (product_id it)) as [p|]; [|discriminate].
    unfold priced. destruct (py_float _) as [prc|]; [|discriminate].
    destruct (dict_get_or p "title" (VStr "Eggs")); try discriminate.
    destruct (of_int (Z.pos (quantity it))) as [qty|]; [|discriminate].
    intros [= <-]. split; reflexivity.
  - destruct (of_int (Z.pos (quantity it))) as [qty|]; [|discriminate].
    intros [= <-]. rewrite (price_and_title_no_db w it Hdb), (db_log_none _ w Hdb).
    split; reflexivity.
Qed.

(** Whatever the outcome, one item only adds its lookup to the trace. *)
Lemma price_and_title_world (w : @World num) (it : OrderItemInput) :
  snd (price_and_title it w) = log (lookup_calls (product_id it)) w.
Proof.
  destruct (db w) as [d|] eqn:Hdb.
  - rewrite (price_and_title_db w d it Hdb). reflexivity.
  - rewrite (price_and_title_no_db w it Hdb), (db_log_none _ w Hdb). reflexivity.
Qed.

Lemma resolved_all_after_lookup (w : @World num) (it : OrderItemInput) (l : Line)
    (its : list OrderItemInput) :
  resolved w (ncalls w) it = Some l ->
  resolved_all (log (lookup_calls (product_id it)) w)
               (ncalls (log (lookup_calls (product_id it)) w)) its =
  resolved_all w (S (ncalls w)) its.
Proof.
  intros Hr. rewrite resolved_all_log. destruct (db w) as [d|] eqn:Hdb.
  - rewrite (ncalls_log _ w d Hdb).
    unfold resolved, price_title_of in Hr. rewrite Hdb in Hr.
    unfold resolve, lookup_calls in *.
    destruct (ObjectId_of_str (product_id it)); [|discriminate]. simpl.
    replace (ncalls w + 1) with (S (ncalls w)) by lia. reflexivity.
  - apply resolved_all_no_db, Hdb.
Qed.

(** *** The loop *)

(** When every item resolves, the loop returns the items in input order with
    the running total, and has issued one lookup per item. *)
Lemma build_items_resolved (its : list OrderItemInput) (lines : list Line)
    (w : @World num) (acc : list OrderItem) (total : num) :
  resolved_all w (ncalls w) its = Some lines ->
  build_items its acc total w =
    (Return (acc ++ zip_with item_of its lines,
             fold_left fadd (map amount lines) total),
     log (flat_map (fun it => lookup_calls (product_id it)) its) w).
Proof.
  revert lines w acc total.
  induction its as [|it its IH]; intros lines w acc total; simpl.
  - intros [= <-]. simpl. rewrite app_nil_r, log_nil. reflexivity.
  - destruct (resolved w (ncalls w) it) as [l|] eqn:Hl; [|discriminate].
    destruct (resolved_all w (S (ncalls w)) its) as [ls|] eqn:Hls; [|discriminate].
    intros [= <-]. unfold bind at 1.
    destruct (price_and_title_resolved w it l Hl) as [Hpt Hq].
    rewrite Hpt. cbv beta iota. rewrite Hq.
    unfold bind at 1. unfold OrderItem_ at 1. unfold ret at 1.
    rewrite <- (resolved_all_after_lookup w it l its Hl) in Hls.
    rewrite (IH ls _ _ _ Hls), log_log, <- app_assoc. reflexivity.
Qed.

(** The loop stops at the first item whose lookup yields nothing: it raises
    404 with that item's id, having issued the lookups up to that item. *)
Lemma build_items_unresolved (pre : list OrderItemInput) (bad : OrderItemInput)
    (post : list OrderItemInput) (lines : list Line)
    (w : @World num) (d : Database) (acc : list OrderItem) (total : num) :
  db w = Some d ->
  resolved_all w (ncalls w) pre = Some lines ->
  resolve d (ncalls w + length pre) (product_id bad) = None ->
  build_items (pre ++ bad :: post) acc total w =
    (Raise (HTTPException 404 ("Product not found: " +:+ product_id bad)),
     log (flat_map (fun it => lookup_calls (product_id it)) (pre ++ [bad])) w).
Proof.
  revert lines w d acc total.
  induction pre as [|it pre IH]; intros lines w d acc total Hdb; simpl.
  - intros _ Hbad. unfold bind at 1. rewrite (price_and_title_db w d bad Hdb).
    unfold ncalls in Hbad. rewrite Hdb, Nat.add_0_r in Hbad. rewrite Hbad.
    rewrite app_nil_r. reflexivity.
  - destruct (resolved w (ncalls w) it) as [l|] eqn:Hl; [|discriminate].
    destruct (resolved_all w (S (ncalls w)) pre) as [ls|] eqn:Hls; [|discriminate].
    intros _ Hbad. unfold bind at 1.
    destruct (price_and_title_resolved w it l Hl) as [Hpt Hq].
    rewrite Hpt. cbv beta iota. rewrite Hq.
    unfold bind at 1. unfold OrderItem_ at 1. unfold ret at 1.
    rewrite <- (resolved_all_after_lookup w it l pre Hl) in Hls.
    set (w1 := log (lookup_calls (product_id it)) w) in *.
    assert (Hdb1 : db w1 = Some {| db_name := db_name d; contents := contents d;
                                   next_oid := next_oid d; outage := outage d;
                                   calls := calls d ++ lookup_calls (product_id it) |})
      by (apply db_log_some, Hdb).
    rewrite (IH ls w1 _ _ _ Hdb1 Hls).
    + unfold w1. rewrite log_log. reflexivity.
    + simpl. unfold w1. rewrite (ncalls_log _ w d Hdb).
      assert (Hone : length (@lookup_calls num (product_id it)) = 1).
      { unfold resolved, price_title_of in Hl. rewrite Hdb in Hl.
        unfold resolve, lookup_calls in *.
        destruct (ObjectId_of_str (product_id it)); [reflexivity|discriminate]. }
      rewrite Hone. unfold resolve in *. simpl.
      replace (ncalls w + 1 + length pre) with (ncalls w + S (length pre)) by lia.
      exact Hbad.
Qed.


(** Whatever the outcome, the loop only issues product lookups, for a prefix
    of the items. *)
Lemma build_items_world (its : list OrderItemInput) (w : @World num)
    (acc : list OrderItem) (total : num) :
  exists n, snd (build_items its acc total w) =
            log (flat_map (fun it => lookup_calls (product_id it)) (take n its)) w.
Proof.
  revert w acc total. induction its as [|it its IH]; intros w acc total; simpl.
  - exists 0. simpl. rewrite log_nil. reflexivity.
  - unfold bind at 1. pose proof (price_and_title_world w it) as Hw.
    destruct (price_and_title it w) as [[[prc ttl]|e] w1] eqn:Hpt; simpl in Hw; subst w1.
    + destruct (of_int (Z.pos (quantity it))) as [qty|];
        [|exists 1; simpl; rewrite app_nil_r; reflexivity].
      unfold bind at 1. unfold OrderItem_ at 1.
      destruct ttl; try (exists 1; simpl; rewrite app_nil_r; reflexivity).
      unfold ret at 1.
      destruct (IH (log (lookup_calls (product_id it)) w)
                   (acc ++ [{| item_product_id := product_id it; item_title := s;
                               item_price := prc; item_quantity := Z.pos (quantity it);
                               item_subtotal := fmul prc qty |}])
                   (fadd total (fmul prc qty))) as [n Hn].
      exists (S n). simpl. rewrite Hn, log_log. reflexivity.
    + exists 1. simpl. rewrite app_nil_r. reflexivity.
Qed.


(** *** Persisting the order *)

Lemma create_document_no_db (w : @World num) (c : string) (om : Order) :
  db w = None ->
  create_document c om w = (Raise (Error "Database not available"), w).
Proof.
  intros Hdb. unfold create_document, bind, get_db. rewrite Hdb. reflexivity.
Qed.

Lemma create_document_outage (w : @World num) (d : Database) (c : string) (om : Order)
    (msg : string) :
  db w = Some d -> outage d (length (calls d)) = Some msg ->
  create_document c om w = (Raise (Error msg), log [InsertOne c (Order_model_dump om)] w).
Proof.
  intros Hdb Hout. unfold create_document, bind, get_db. rewrite Hdb.
  unfold insert_one, driver_call. rewrite Hdb, Hout. unfold log. rewrite Hdb. reflexivity.
Qed.

Lemma create_document_stored (w : @World num) (d : Database) (c : string) (om : Order) :
  db w = Some d -> outage d (length (calls d)) = None ->
  create_document c om w =
    (Return (oid_str (generated (next_oid d))), inserted c (Order_model_dump om) w).
Proof.
  intros Hdb Hout. unfold create_document, bind, get_db. rewrite Hdb.
  unfold insert_one, driver_call. rewrite Hdb, Hout. unfold inserted. rewrite Hdb.
  reflexivity.
Qed.

Lemma stored_inserted (w : @World num) (d : Database) (c : string) (doc : document) :
  db w = Some d ->
  stored (inserted c doc w) c = stored w c ++ [(generated (next_oid d), doc)].
Proof.
  intros Hdb. unfold stored, inserted. rewrite Hdb. simpl. unfold collection. simpl.
  rewrite lookup_insert_eq. reflexivity.
Qed.

Lemma added_same (w w' : @World num) (c : string) :
  stored w' c = stored w c -> added w w' c = [].
Proof. intros E. unfold added. rewrite E. apply drop_all. Qed.

Lemma added_inserted (w0 w : @World num) (d : Database) (c : string) (doc : document) :
  db w = Some d -> stored w c = stored w0 c ->
  added w0 (inserted c doc w) c = [(generated (next_oid d), doc)].
Proof.
  intros Hdb E. unfold added. rewrite (stored_inserted w d c doc Hdb), E.
  rewrite drop_app_length. reflexivity.
Qed.

Lemma fsum_subtotals (w : @World num) (k : nat) (its : list OrderItemInput)
    (lines : list Line) :
  resolved_all w k its = Some lines ->
  map item_subtotal (zip_with item_of its lines) = map amount lines.
Proof.
  revert k lines. induction its as [|it its IH]; intros k lines; simpl.
  - intros [= <-]. reflexivity.
  - destruct (resolved w k it) as [l|]; [|discriminate].
    destruct (resolved_all w (S k) its) as [ls|] eqn:Hls; [|discriminate].
    intros [= <-]. simpl. rewrite (IH _ _ Hls). reflexivity.
Qed.

Lemma subtotals_item_of (w : @World num) (k : nat) (its : list OrderItemInput)
    (lines : list Line) :
  resolved_all w k its = Some lines ->
  Forall (fun i => exists qty, of_int (item_quantity i) = Some qty /\
                               item_subtotal i = fmul (item_price i) qty)
         (zip_with item_of its lines).
Proof.
  revert k lines. induction its as [|it its IH]; intros k lines; simpl.
  - intros [= <-]. constructor.
  - destruct (resolved w k it) as [l|] eqn:Hl; [|discriminate].
    destruct (resolved_all w (S k) its) as [ls|] eqn:Hls; [|discriminate].
    intros [= <-]. simpl. constructor; [|exact (IH _ _ Hls)].
    exists (line_quantity l). split; [|reflexivity]. simpl.
    unfold resolved in Hl. destruct (price_title_of w k it); [|discriminate].
    destruct (of_int (Z.pos (quantity it))); [|discriminate].
    injection Hl as <-. reflexivity.
Qed.

Lemma flat_map_lookups_length (w : @World num) (k : nat) (its : list OrderItemInput)
    (lines : list Line) :
  is_Some (db w) ->
  resolved_all w k its = Some lines ->
  length (flat_map (fun it => @lookup_calls num (product_id it)) its) = length its.
Proof.
  intros [d Hdb]. revert k lines. induction its as [|it its IH]; intros k lines; simpl.
  - reflexivity.
  - unfold resolved at 1, price_title_of. rewrite Hdb.
    destruct (resolve d k (product_id it)) as [p|] eqn:Hr; [|discriminate].
    destruct (priced p); [|discriminate].
    destruct (of_int (Z.pos (quantity it))); [|discriminate].
    destruct (resolved_all w (S k) its) as [ls|] eqn:Hls; [|discriminate].
    intros _. rewrite length_app, (IH _ _ Hls).
    unfold resolve, lookup_calls in *.
    destruct (ObjectId_of_str (product_id it)); [reflexivity|discriminate].
Qed.


(** *** [create_order], unfolded *)

(** With every item resolved, [create_order] answers 200; what it stores
    depends on the database handle and on the outcome of the insert. *)
Lemma create_order_resolved (w : @World num) (payload : CreateOrderInput)
    (lines : list Line) :
  in_items payload <> [] ->
  resolved_all w (ncalls w) (in_items payload) = Some lines ->
  let total := fsum (map amount lines) in
  let om := order_model payload (zip_with item_of (in_items payload) lines) total in
  let w1 := log (flat_map (fun it => lookup_calls (product_id it)) (in_items payload)) w in
  create_order payload w =
    match db w with
    | None => (Return (order_response "demo-order-id" (order_status payload) total), w)
    | Some d =>
        match outage d (length (calls d) + length (in_items payload)) with
        | Some _ =>
            (Return (order_response "demo-order-id" (order_status payload) total),
             log [InsertOne "order" (Order_model_dump om)] w1)
        | None =>
            (Return (order_response (oid_str (generated (next_oid d))) (order_status payload) total),
             inserted "order" (Order_model_dump om) w1)
        end
    end.
Proof.
  intros Hne Hres. cbv zeta. unfold create_order.
  destruct (in_items payload) as [|it0 its0] eqn:Hits; [congruence|].
  rewrite <- Hits in *. clear Hits it0 its0. unfold bind at 1.
  rewrite (build_items_resolved _ lines w [] fzero Hres). simpl app.
  unfold bind, try_except.
  change (fold_left fadd (map amount lines) fzero)
    with (fsum (map amount lines)).
  set (total := fsum (map amount lines)).
  set (w1 := log _ w).
  change ({| items := zip_with item_of (in_items payload) lines;
             customer_name := in_customer_name payload;
             email := in_email payload;
             address := in_address payload;
             payment_method :=
               if bool_decide (in_payment_method payload ∈ ["card"; "cod"])
               then in_payment_method payload else "card";
             total_amount := round2 total;
             status := if (in_payment_method payload =? "card")%string
                       then "paid" else "pending" |})
    with (order_model payload (zip_with item_of (in_items payload) lines) total).
  set (om := order_model payload _ total).
  destruct (db w) as [d|] eqn:Hdb.
  - assert (Hdb1 : db w1 = Some {| db_name := db_name d; contents := contents d;
                                   next_oid := next_oid d; outage := outage d;
                                   calls := calls d ++
                                     flat_map (fun it => lookup_calls (product_id it))
                                              (in_items payload) |})
      by (apply db_log_some, Hdb).
    assert (Hlen : length (calls d ++ flat_map (fun it => @lookup_calls num (product_id it))
                                              (in_items payload))
                   = length (calls d) + length (in_items payload)).
    { rewrite length_app. f_equal.
      eapply flat_map_lookups_length; [rewrite Hdb; eauto | exact Hres]. }
    destruct (outage d (length (calls d) + length (in_items payload))) as [msg|] eqn:Hout.
    + rewrite (create_document_outage w1 _ "order" om msg Hdb1)
        by (simpl; rewrite Hlen; exact Hout).
      reflexivity.
    + rewrite (create_document_stored w1 _ "order" om Hdb1)
        by (simpl; rewrite Hlen; exact Hout).
      reflexivity.
  - assert (Hw1 : w1 = w) by (apply db_log_none, Hdb). rewrite Hw1.
    rewrite (create_document_no_db w "order" om Hdb). reflexivity.
Qed.


Lemma added_log (w0 w : @World num) (cs : list Call) (c : string) :
  stored w c = stored w0 c -> added w0 (log cs w) c = [].
Proof. intros E. apply added_same. rewrite stored_log. exact E. Qed.

Lemma same_store_trans (w1 w2 w3 : @World num) :
  same_store w1 w2 -> same_store w2 w3 -> same_store w1 w3.
Proof.
  unfold same_store. destruct (db w1), (db w2), (db w3); intros [E1 D1] [E2 D2];
    try contradiction; (split; [congruence|]); auto.
  destruct D1 as (?&?&?&?), D2 as (?&?&?&?). repeat split; congruence.
Qed.

Lemma same_store_stored (w w' : @World num) (c : string) :
  same_store w w' -> stored w' c = stored w c.
Proof.
  unfold same_store, stored, collection. intros [_ Hs].
  destruct (db w), (db w'); try contradiction; [|reflexivity].
  destruct Hs as (_ & -> & _). reflexivity.
Qed.

(** *** The claims about [create_order] *)

(** C4.  A request whose [items] list is empty is answered with
    HTTP 400, and the world is left exactly as it was: no driver call is
    issued and no order is stored. *)
Theorem create_order_empty_items (w : @World num) (payload : CreateOrderInput) :
  in_items payload = [] ->
  create_order payload w = (Raise (HTTPException 400 "No items in order"), w).
Proof. intros Hits. unfold create_order. rewrite Hits. reflexivity. Qed.

(** C1, as amended.  For a non-empty order whose items all resolve (each
    lookup finds a product with a usable price and title, or there is no
    database handle, and each quantity converts to float), [create_order]
    answers 200 and the [total] of the body is the float sum, from 0.0 and in
    input order, of resolved price times quantity, rounded to two decimals.
    The order it hands to the store has one item per input item with
    [subtotal = price * quantity], its [total_amount] is the rounded sum of
    these subtotals, and that order is what the [order] collection gains
    when the insert succeeds. *)
Theorem create_order_total (w : @World num) (payload : CreateOrderInput)
    (lines : list Line) :
  in_items payload <> [] ->
  resolved_all w (ncalls w) (in_items payload) = Some lines ->
  exists (resp : document) (w' : World) (om : Order),
    create_order payload w = (Return resp, w') /\
    resp !! "total" = Some (VFloat (round2 (fsum (map amount lines)))) /\
    items om = zip_with item_of (in_items payload) lines /\
    Forall (fun i => exists qty, of_int (item_quantity i) = Some qty /\
                                 item_subtotal i = fmul (item_price i) qty)
           (items om) /\
    total_amount om = round2 (fsum (map item_subtotal (items om))) /\
    Order_model_dump om !! "total_amount" = Some (VFloat (total_amount om)) /\
    added w w' "order" =
      match db w with
      | None => []
      | Some d =>
          match outage d (ncalls w + length (in_items payload)) with
          | Some _ => []
          | None => [(generated (next_oid d), Order_model_dump om)]
          end
      end.
Proof.
  intros Hne Hres.
  pose proof (create_order_resolved w payload lines Hne Hres) as Hco. cbv zeta in Hco.
  set (total := fsum (map amount lines)) in *.
  set (om := order_model payload (zip_with item_of (in_items payload) lines) total) in *.
  set (w1 := log _ w) in Hco.
  assert (Hom : items om = zip_with item_of (in_items payload) lines /\
                Forall (fun i => exists qty, of_int (item_quantity i) = Some qty /\
                                             item_subtotal i = fmul (item_price i) qty)
                       (items om) /\
                total_amount om = round2 (fsum (map item_subtotal (items om))) /\
                Order_model_dump om !! "total_amount" = Some (VFloat (total_amount om))).
  { split; [reflexivity|]. split; [exact (subtotals_item_of _ _ _ _ Hres)|].
    split; [|reflexivity]. simpl. rewrite (fsum_subtotals _ _ _ _ Hres). reflexivity. }
  assert (Hst : stored w1 "order" = stored w "order") by apply stored_log.
  unfold ncalls. destruct (db w) as [d|] eqn:Hdb.
  - assert (Hdb1 : db w1 = Some {| db_name := db_name d; contents := contents d;
                                   next_oid := next_oid d; outage := outage d;
                                   calls := calls d ++
                                     flat_map (fun it => lookup_calls (product_id it))
                                              (in_items payload) |})
      by (apply db_log_some, Hdb).
    destruct (outage d (length (calls d) + length (in_items payload))).
    + eexists _, _, om. split; [exact Hco|]. split; [reflexivity|].
      destruct Hom as (?&?&?&?). repeat (split; [assumption|]).
      apply added_log, Hst.
    + eexists _, _, om. split; [exact Hco|]. split; [reflexivity|].
      destruct Hom as (?&?&?&?). repeat (split; [assumption|]).
      rewrite (added_inserted w w1 _ "order" _ Hdb1 Hst). reflexivity.
  - eexists _, _, om. split; [exact Hco|]. split; [reflexivity|].
    destruct Hom as (?&?&?&?). repeat (split; [assumption|]).
    apply added_same. reflexivity.
Qed.


(** A 200 answer of [create_order] comes from a completed loop followed by
    the attempt to store the order. *)
Lemma create_order_returns (w w' : @World num) (payload : CreateOrderInput) (resp : document) :
  create_order payload w = (Return resp, w') ->
  exists (itms : list OrderItem) (total : num) (w1 : World) (order_id : string),
    build_items (in_items payload) [] fzero w = (Return (itms, total), w1) /\
    resp = order_response order_id (order_status payload) total /\
    (create_document "order" (order_model payload itms total) w1 = (Return order_id, w') \/
     (order_id = "demo-order-id" /\
      exists e, create_document "order" (order_model payload itms total) w1 = (Raise e, w'))).
Proof.
  unfold create_order. destruct (in_items payload) as [|it0 its0] eqn:Hits; [discriminate|].
  rewrite <- Hits. clear Hits it0 its0. unfold bind at 1.
  destruct (build_items (in_items payload) [] fzero w) as [[[itms total]|e] w1];
    [|discriminate].
  unfold bind, try_except.
  change ({| items := itms;
             customer_name := in_customer_name payload;
             email := in_email payload;
             address := in_address payload;
             payment_method :=
               if bool_decide (in_payment_method payload ∈ ["card"; "cod"])
               then in_payment_method payload else "card";
             total_amount := round2 total;
             status := if (in_payment_method payload =? "card")%string
                       then "paid" else "pending" |})
    with (order_model payload itms total).
  destruct (create_document "order" (order_model payload itms total) w1)
    as [[oid|e] w2] eqn:Hcd; unfold ret; intros [= <- <-].
  - exists itms, total, w1, oid. split; [reflexivity|]. split; [reflexivity|].
    left. exact Hcd.
  - exists itms, total, w1, "demo-order-id". split; [reflexivity|]. split; [reflexivity|].
    right. split; [reflexivity|]. exists e. exact Hcd.
Qed.

(** The calls of a request that issued [cs] and then stored [doc]. *)
Lemma issued_inserted (w : @World num) (d : Database) (cs : list Call) (c : string)
    (doc : document) :
  db w = Some d ->
  issued w (inserted c doc (log cs w)) = cs ++ [InsertOne c doc].
Proof.
  intros Hdb. unfold issued, inserted. rewrite (db_log_some cs w d Hdb), Hdb. simpl.
  rewrite <- app_assoc, drop_app_length. reflexivity.
Qed.

(** C8.  With a database handle, a non-empty order whose items all
    resolve is answered 200.  Whenever [create_order] answers 200, the last
    driver call it issued is the insert of one document into [order], and
    that document's [total_amount] and [status] are the body's [total] and
    [status].  When that insert does not fail, the document is exactly what
    the [order] collection gained and the body's [order_id] is its
    identifier; when it fails, nothing was stored and the body carries the
    placeholder id. *)
Theorem response_matches_stored_order (w : @World num) (d : Database)
    (payload : CreateOrderInput) :
  db w = Some d ->
  (forall lines : list Line,
     in_items payload <> [] ->
     resolved_all w (ncalls w) (in_items payload) = Some lines ->
     exists (resp : document) (w' : World), create_order payload w = (Return resp, w')) /\
  (forall (resp : document) (w' : World),
     create_order payload w = (Return resp, w') ->
     exists (lookups : list Call) (doc : document) (t : num) (s : string),
       issued w w' = lookups ++ [InsertOne "order" doc] /\
       doc !! "total_amount" = Some (VFloat t) /\ resp !! "total" = Some (VFloat t) /\
       doc !! "status" = Some (VStr s) /\ resp !! "status" = Some (VStr s) /\
       match outage d (ncalls w + length lookups) with
       | None =>
           added w w' "order" = [(generated (next_oid d), doc)] /\
           resp !! "order_id" = Some (VStr (oid_str (generated (next_oid d))))
       | Some _ =>
           added w w' "order" = [] /\
           resp !! "order_id" = Some (VStr "demo-order-id")
       end).
Proof.
  intros Hdb. split.
  { intros lines Hne Hres.
    pose proof (create_order_resolved w payload lines Hne Hres) as Hco. cbv zeta in Hco.
    rewrite Hdb in Hco. destruct (outage d _) in Hco; eexists _, _; exact Hco. }
  intros resp w' Hco.
  destruct (create_order_returns w w' payload resp Hco)
    as (itms & total & w1 & order_id & Hloop & -> & Hcd).
  destruct (build_items_world (in_items payload) w [] fzero) as [n Hn].
  rewrite Hloop in Hn. simpl in Hn. subst w1.
  set (cs := flat_map _ _) in *.
  assert (Hdb1 : db (log cs w) = Some {| db_name := db_name d; contents := contents d;
                                        next_oid := next_oid d; outage := outage d;
                                        calls := calls d ++ cs |})
    by (apply db_log_some, Hdb).
  assert (Hst : stored (log cs w) "order" = stored w "order") by apply stored_log.
  set (om := order_model payload itms total) in *.
  exists cs, (Order_model_dump om), (round2 total), (order_status payload).
  assert (Hidx : ncalls w + length cs = length (calls d ++ cs))
    by (unfold ncalls; rewrite Hdb, length_app; reflexivity).
  rewrite Hidx.
  destruct (outage d (length (calls d ++ cs))) as [msg|] eqn:Hout.
  - rewrite (create_document_outage (log cs w) _ "order" om msg Hdb1 Hout) in Hcd.
    destruct Hcd as [Hcd | (-> & e & Hcd)]; [discriminate|].
    injection Hcd as _ <-. rewrite log_log.
    split; [apply (issued_log _ w d Hdb)|]. do 4 (split; [reflexivity|]).
    split; [|reflexivity]. rewrite <- log_log. apply added_log, Hst.
  - rewrite (create_document_stored (log cs w) _ "order" om Hdb1 Hout) in Hcd.
    destruct Hcd as [Hcd | (_ & e & Hcd)]; [|discriminate].
    injection Hcd as <- <-.
    split; [apply (issued_inserted w d cs "order" _ Hdb)|]. do 4 (split; [reflexivity|]).
    split; [|reflexivity].
    apply (added_inserted w (log cs w) _ "order" _ Hdb1 Hst).
Qed.


(** What a request that stops at an unresolved item leaves behind. *)
Lemma create_order_unresolved (w : @World num) (d : Database) (payload : CreateOrderInput)
    (pre : list OrderItemInput) (bad : OrderItemInput) (post : list OrderItemInput)
    (lines : list Line) :
  db w = Some d ->
  in_items payload = pre ++ bad :: post ->
  resolved_all w (ncalls w) pre = Some lines ->
  resolve d (ncalls w + length pre) (product_id bad) = None ->
  create_order payload w =
    (Raise (HTTPException 404 ("Product not found: " +:+ product_id bad)),
     log (flat_map (fun it => lookup_calls (product_id it)) (pre ++ [bad])) w).
Proof.
  intros Hdb Hits Hpre Hbad. unfold create_order. rewrite Hits.
  destruct (pre ++ bad :: post) as [|it0 its0] eqn:E; [destruct pre; discriminate|].
  rewrite <- E. unfold bind at 1.
  rewrite (build_items_unresolved pre bad post lines w d [] fzero Hdb Hpre Hbad).
  reflexivity.
Qed.



Lemma lookups_are_finds (its : list OrderItemInput) :
  Forall (fun c : @Call num => exists o, c = FindOne "product" o)
         (flat_map (fun it => lookup_calls (product_id it)) its).
Proof.
  induction its as [|it its IH]; simpl; [constructor|].
  apply Forall_app. split; [|exact IH].
  unfold lookup_calls. destruct (ObjectId_of_str (product_id it)) as [o|]; repeat constructor.
  exists o. reflexivity.
Qed.



(** *** Degraded operation *)

Lemma list_products_no_db (w : @World num) :
  db w = None -> list_products py_str w = (Return [demo_product], w).
Proof. intros Hdb. unfold list_products, bind, get_db. rewrite Hdb. reflexivity. Qed.

Lemma list_products_db (w : @World num) (d : Database) :
  db w = Some d ->
  list_products py_str w =
    (match outage d (length (calls d)) with
     | Some msg => Raise (Error msg)
     | None => Return (map (to_str_id py_str) (map returned (collection d "product")))
     end, log [Find "product"] w).
Proof.
  intros Hdb. unfold list_products, bind, get_db. rewrite Hdb.
  unfold find, driver_call. rewrite Hdb.
  destruct (outage d (length (calls d))); unfold log; rewrite Hdb; reflexivity.
Qed.

(** Without a database handle every item whose quantity converts resolves
    to the fallback line. *)
Lemma resolved_all_fallback (w : @World num) (k : nat) (its : list OrderItemInput)
    (qtys : list num) :
  db w = None ->
  Forall2 (fun it qty => of_int (Z.pos (quantity it)) = Some qty) its qtys ->
  resolved_all w k its =
    Some (map (fun qty => {| line_price := fdec 499 2;
                             line_title := "Free-Range Eggs (12 pcs)";
                             line_quantity := qty |}) qtys).
Proof.
  intros Hdb Hq. revert k. induction Hq as [|it qty its qtys Hit _ IH]; intros k; simpl.
  - reflexivity.
  - unfold resolved, price_title_of. rewrite Hdb, Hit, IH. reflexivity.
Qed.

Lemma amounts_fallback (qtys : list num) (title : string) :
  map amount (map (fun qty => {| line_price := fdec 499 2; line_title := title;
                                 line_quantity := qty |}) qtys)
  = map (fmul (fdec 499 2)) qtys.
Proof. rewrite map_map. reflexivity. Qed.

(** C5, as amended.  Without a database handle, requests are served in a
    degraded way: the product listing is the single demo product, whose id
    is "0"; any non-empty order whose quantities convert to float is
    answered 200 with the placeholder id and a total of 4.99 times quantity
    summed over the items and rounded, whatever the product ids, and the
    world is unchanged.  With a database handle, an order whose items
    resolve and whose insert fails is still answered 200 with the
    placeholder id, its total computed from the resolved prices, and nothing
    is stored.  The other failures of the store are not recovered that way:
    a listing whose [find] raises passes the exception on, and an order
    one of whose lookups raises, the items before it having resolved, is
    answered 404 naming that item, and stores nothing. *)
Theorem storage_unavailable_degrades :
  (forall w : @World num,
     db w = None ->
     list_products py_str w = (Return [demo_product], w) /\
     demo_product !! "id" = Some (VStr "0")) /\
  (forall (w : @World num) (payload : CreateOrderInput) (qtys : list num),
     db w = None -> in_items payload <> [] ->
     Forall2 (fun it qty => of_int (Z.pos (quantity it)) = Some qty)
             (in_items payload) qtys ->
     exists resp : document,
       create_order payload w = (Return resp, w) /\
       resp !! "order_id" = Some (VStr "demo-order-id") /\
       resp !! "total" = Some (VFloat (round2 (fsum (map (fmul (fdec 499 2)) qtys))))) /\
  (forall (w : @World num) (d : Database) (payload : CreateOrderInput)
          (lines : list Line),
     db w = Some d -> in_items payload <> [] ->
     resolved_all w (ncalls w) (in_items payload) = Some lines ->
     is_Some (outage d (ncalls w + length (in_items payload))) ->
     exists (resp : document) (w' : World),
       create_order payload w = (Return resp, w') /\
       resp !! "order_id" = Some (VStr "demo-order-id") /\
       resp !! "total" = Some (VFloat (round2 (fsum (map amount lines)))) /\
       same_store w w' /\ added w w' "order" = []) /\
  (forall (w : @World num) (d : Database) (msg : string),
     db w = Some d -> outage d (length (calls d)) = Some msg ->
     exists w' : World,
       list_products py_str w = (Raise (Error msg), w') /\ same_store w w') /\
  (forall (w : @World num) (d : Database) (payload : CreateOrderInput)
          (pre : list OrderItemInput) (it : OrderItemInput) (rest : list OrderItemInput)
          (lines : list Line),
     db w = Some d -> in_items payload = pre ++ it :: rest ->
     resolved_all w (ncalls w) pre = Some lines ->
     is_Some (outage d (ncalls w + length pre)) ->
     exists w' : World,
       create_order payload w =
         (Raise (HTTPException 404 ("Product not found: " +:+ product_id it)), w') /\
       same_store w w' /\ added w w' "order" = []).
Proof.
  split; [|split; [|split; [|split]]].
  - intros w Hdb. split; [apply list_products_no_db, Hdb | reflexivity].
  - intros w payload qtys Hdb Hne Hq.
    pose proof (create_order_resolved w payload _ Hne
                  (resolved_all_fallback w (ncalls w) (in_items payload) qtys Hdb Hq)) as Hco.
    cbv zeta in Hco. rewrite Hdb in Hco. rewrite amounts_fallback in Hco.
    eexists. split; [exact Hco|]. split; reflexivity.
  - intros w d payload lines Hdb Hne Hres [msg Hout].
    pose proof (create_order_resolved w payload lines Hne Hres) as Hco.
    cbv zeta in Hco. rewrite Hdb in Hco. unfold ncalls in Hout. rewrite Hdb in Hout.
    rewrite Hout in Hco.
    eexists _, _. split; [exact Hco|]. split; [reflexivity|]. split; [reflexivity|].
    split.
    + eapply same_store_trans; apply same_store_log.
    + apply added_log, stored_log.
  - intros w d msg Hdb Hout. eexists.
    rewrite (list_products_db w d Hdb), Hout. split; [reflexivity|apply same_store_log].
  - intros w d payload pre it rest lines Hdb Hits Hpre [msg Hout]. eexists.
    split; [|split].
    + apply (create_order_unresolved w d payload pre it rest lines Hdb Hits Hpre).
      unfold resolve. rewrite Hout.
      destruct (ObjectId_of_str (product_id it)); reflexivity.
    + apply same_store_log.
    + apply added_log. reflexivity.
Qed.


(** *** Seeding *)

Lemma insert_one_stored (w : @World num) (d : Database) (c : string) (doc : document) :
  db w = Some d -> outage d (length (calls d)) = None ->
  insert_one c doc w = (Return (generated (next_oid d)), inserted c doc w).
Proof.
  intros Hdb Hout. unfold insert_one, driver_call, inserted. rewrite Hdb, Hout. reflexivity.
Qed.

Lemma count_documents_db (w : @World num) (d : Database) (c : string) :
  db w = Some d ->
  count_documents c w =
    (match outage d (length (calls d)) with
     | Some msg => Raise (Error msg)
     | None => Return (Z.of_nat (length (collection d c)))
     end, log [CountDocuments c] w).
Proof.
  intros Hdb. unfold count_documents, driver_call. rewrite Hdb.
  destruct (outage d (length (calls d))); unfold log; rewrite Hdb; reflexivity.
Qed.

Lemma db_inserted (w : @World num) (d : Database) (c : string) (doc : document) :
  db w = Some d ->
  db (inserted c doc w) =
    Some {| db_name := db_name d;
            contents := <[c := collection d c ++ [(generated (next_oid d), doc)]]> (contents d);
            next_oid := (next_oid d + 1)%N;
            outage := outage d;
            calls := calls d ++ [InsertOne c doc] |}.
Proof. intros Hdb. unfold inserted. rewrite Hdb. reflexivity. Qed.

(** The seeding loop, when none of its inserts fails, appends the dumps of
    the products in order. *)
Lemma seed_loop (ps : list Product) (w : @World num) (d : Database) :
  db w = Some d ->
  (forall k, k < length ps -> outage d (length (calls d) + k) = None) ->
  exists w' : World,
    for_each ps (fun p => _ <- insert_one "product" (Product_model_dump p) ;; ret tt) w
      = (Return tt, w') /\
    map snd (stored w' "product") = map snd (stored w "product") ++ map Product_model_dump ps.
Proof.
  revert w d. induction ps as [|p ps IH]; intros w d Hdb Hout; simpl.
  - exists w. split; [reflexivity|]. rewrite app_nil_r. reflexivity.
  - unfold bind at 1. unfold bind at 1.
    rewrite (insert_one_stored w d "product" _ Hdb)
      by (rewrite <- (Hout 0) by (simpl; lia); f_equal; lia).
    unfold ret at 1.
    pose proof (db_inserted w d "product" (Product_model_dump p) Hdb) as Hdb1.
    destruct (IH _ _ Hdb1) as (w' & Hrun & Hst).
    + intros k Hk. simpl. rewrite length_app. simpl.
      rewrite <- (Hout (S k)) by (simpl; lia). f_equal. lia.
    + exists w'. split; [exact Hrun|]. rewrite Hst.
      rewrite (stored_inserted w d "product" _ Hdb), map_app, <- app_assoc. reflexivity.
Qed.



(** *** Diagnostics *)

(** C7.  [test_database] returns a body in every world: with or without
    a database handle, and whether or not the enumeration of collections
    raises.  The [database] field is one of the status strings the function
    defines, the [collections] field lists at most ten names, and the store
    and the environment are left as they were. *)
Theorem test_database_total (w : @World num) :
  exists (resp : document) (w' : World) (s : string) (names : list string),
    test_database w = (Return resp, w') /\
    same_store w w' /\
    resp !! "database" = Some (VStr s) /\ database_status s /\
    resp !! "collections" = Some (VList (map VStr names)) /\ length names <= 10.
Proof.
  unfold test_database, bind at 1, try_except at 1, bind at 1, get_db at 1.
  destruct (db w) as [d|] eqn:Hdb.
  - unfold try_except, bind at 1, list_collection_names, driver_call. rewrite Hdb.
    destruct (outage d (length (calls d))) as [msg|] eqn:Hout; cbn [exn_str];
      unfold bind, ret, getenv; cbn [environ]; eexists _, _, _.
    + exists []. split; [reflexivity|]. split.
      { pose proof (same_store_log [ListCollectionNames] w) as Hs.
        unfold log in Hs. rewrite Hdb in Hs. exact Hs. }
      split; [by simplify_map_eq|]. split.
      { right. right. right. right. left. eexists. split; [reflexivity|].
        apply py_len_prefix. }
      split; [by simplify_map_eq | simpl; lia].
    + exists (take 10 (map fst (map_to_list (contents d)))).
      split; [reflexivity|]. split.
      { pose proof (same_store_log [ListCollectionNames] w) as Hs.
        unfold log in Hs. rewrite Hdb in Hs. exact Hs. }
      split; [by simplify_map_eq|]. split.
      { right. right. left. reflexivity. }
      split; [by simplify_map_eq|]. rewrite length_take. lia.
  - unfold bind, ret, getenv. eexists _, _, _, []. split; [reflexivity|]. split.
    { rewrite <- (log_nil w) at 2. apply same_store_log. }
    split; [by simplify_map_eq|]. split.
    { right. right. right. left. reflexivity. }
    split; [by simplify_map_eq | simpl; lia].
Qed.

(** *** Identifiers in listings *)

Lemma to_str_id_with_id (doc : document) (v : value) :
  doc !! "_id" = Some v -> truthy v = true ->
  to_str_id py_str doc = <["id" := VStr (py_str v)]> (delete "_id" doc).
Proof.
  intros Hid Ht. unfold to_str_id, dict_get. rewrite Hid. simpl. rewrite Ht. reflexivity.
Qed.

Lemma to_str_id_heap_copy (doc : nat) (h : list document) (content : document) :
  h !! doc = Some content ->
  to_str_id_heap py_str doc h = (length h, h ++ [to_str_id py_str content]).
Proof.
  intros Hdoc. unfold to_str_id_heap, dict_copy, dict_pop, dict_setitem, to_str_id.
  assert (Hget : heap_get h doc = content) by (unfold heap_get; rewrite Hdoc; reflexivity).
  rewrite Hget.
  assert (Hnew : heap_get (h ++ [content]) (length h) = content).
  { unfold heap_get. rewrite list_lookup_middle by reflexivity. reflexivity. }
  rewrite Hnew. destruct (truthy (dict_get content "_id")); [|reflexivity].
  f_equal.
  rewrite (insert_app_r_alt h [content] (length h)) by lia.
  rewrite Nat.sub_diag. simpl.
  unfold heap_get. rewrite list_lookup_middle by reflexivity. simpl.
  rewrite (insert_app_r_alt h _ (length h)) by lia.
  rewrite Nat.sub_diag. reflexivity.
Qed.

(** C10.  With a database handle and a listing call that does not fail,
    [list_products] returns one document per stored product, in stored
    order: the document without its [_id], with [id] holding the string form
    of the identifier, and with every other field as stored; the store is
    left as it was.  On dictionary objects, [to_str_id] allocates a new
    dictionary for its result: the argument keeps its contents, and so does
    every dictionary that existed before the call. *)
Theorem list_products_renames_id (w : @World num) (d : Database) :
  db w = Some d -> outage d (length (calls d)) = None ->
  (exists w' : World,
     list_products py_str w =
       (Return (map (fun e => <["id" := VStr (py_str (VOid (fst e)))]> (delete "_id" (snd e)))
                    (collection d "product")), w') /\
     same_store w w' /\
     Forall (fun e =>
               let out := to_str_id py_str (returned e) in
               out !! "_id" = None /\
               out !! "id" = Some (VStr (py_str (VOid (fst e)))) /\
               forall k, k <> "_id" -> k <> "id" -> out !! k = snd e !! k)
            (collection d "product")) /\
  (forall (h : list document) (doc : nat) (content : document),
     h !! doc = Some content ->
     exists (res : nat) (h' : list document),
       to_str_id_heap py_str doc h = (res, h') /\
       res <> doc /\
       h' !! doc = Some content /\
       take (length h) h' = h /\
       h' !! res = Some (to_str_id py_str content)).
Proof.
  intros Hdb Hout.
  assert (Hone : forall e : ObjectId * document,
             to_str_id py_str (returned e)
             = <["id" := VStr (py_str (VOid (fst e)))]> (delete "_id" (snd e))).
  { intros e. rewrite (to_str_id_with_id (returned e) (VOid (fst e))).
    - unfold returned. rewrite delete_insert_eq. reflexivity.
    - unfold returned. apply lookup_insert_eq.
    - reflexivity. }
  split.
  - eexists. rewrite (list_products_db w d Hdb), Hout. split; [|split].
    + rewrite map_map, (map_ext _ _ Hone). reflexivity.
    + apply same_store_log.
    + apply Forall_forall. intros e _. cbv zeta. rewrite Hone. split; [|split].
      * rewrite lookup_insert_ne by discriminate. apply lookup_delete_eq.
      * apply lookup_insert_eq.
      * intros k Hk1 Hk2. rewrite lookup_insert_ne by congruence.
        apply lookup_delete_ne. congruence.
  - intros h doc content Hdoc. eexists _, _.
    split; [exact (to_str_id_heap_copy doc h content Hdoc)|].
    pose proof (lookup_lt_Some _ _ _ Hdoc) as Hlt.
    split; [lia|]. split; [apply lookup_app_l_Some, Hdoc|]. split.
    + rewrite take_app_length. reflexivity.
    + apply list_lookup_middle. reflexivity.
Qed.


(** *** Usable products are what seeding stores *)

Lemma priced_returned (e : ObjectId * document) : priced (returned e) = priced (snd e).
Proof.
  unfold priced, returned, dict_get_or.
  rewrite !lookup_insert_ne by discriminate. reflexivity.
Qed.

Lemma priced_model_dump (p : Product) :
  priced (Product_model_dump p) = Some (price p, title p).
Proof. reflexivity. Qed.

(** After the process started on an empty product collection, every stored
    product has a usable price and title. *)
Lemma startup_products_usable (w : @World num) (d : Database) :
  db w = Some d -> collection d "product" = [] ->
  (forall k, k < 6 -> outage d (length (calls d) + k) = None) ->
  exists (w' : World) (d' : Database),
    startup w = (Return tt, w') /\ db w' = Some d' /\ products_usable d'.
Proof.
  intros Hdb Hempty Hout. unfold startup, seed_products, bind at 1, get_db.
  rewrite Hdb. unfold bind at 1. rewrite (count_documents_db w d "product" Hdb).
  rewrite <- (Nat.add_0_r (length (calls d))), (Hout 0) by lia.
  rewrite Hempty. simpl length. simpl Z.of_nat. simpl Z.ltb. cbv iota.
  pose proof (db_log_some [CountDocuments "product"] w d Hdb) as Hdb1.
  destruct (seed_loop sample_products _ _ Hdb1) as (w' & Hrun & Hst).
  { intros k Hk. simpl. rewrite length_app. simpl. simpl in Hk.
    rewrite <- (Hout (S k)) by lia. f_equal. lia. }
  rewrite stored_log in Hst. unfold stored in Hst at 2. rewrite Hdb, Hempty in Hst.
  change (map snd (stored w' "product") = map Product_model_dump sample_products) in Hst.
  unfold stored in Hst.
  destruct (db w') as [d'|] eqn:Hdb'; [|discriminate].
  exists w', d'. split; [exact Hrun|]. split; [exact Hdb'|].
  unfold products_usable. apply Forall_forall. intros e He.
  rewrite priced_returned.
  assert (Hin : snd e ∈ map Product_model_dump sample_products).
  { rewrite <- Hst. apply list_elem_of_fmap. exists e. split; [reflexivity | exact He]. }
  apply list_elem_of_fmap in Hin as (p & -> & _).
  rewrite priced_model_dump. eauto.
Qed.

(* ------------------------------------------------------------------ *)
(** ** Further properties of main.py *)

(** *** Identifiers as text *)

Lemma hex_val_digit (m : N) : (m < 16)%N -> hex_val (hex_digit m) = Some m.
Proof.
  intros Hm. destruct m as [|p]; [reflexivity|].
  do 4 (destruct p as [p|p|]; try reflexivity); lia.
Qed.

Lemma hex_digit_not_space (m : N) : (m < 16)%N -> is_space (hex_digit m) = false.
Proof.
  intros Hm. destruct m as [|p]; [reflexivity|].
  do 4 (destruct p as [p|p|]; try reflexivity); lia.
Qed.

Lemma hex_digit_ascii (m : N) : (m < 16)%N -> utf8_continuation (hex_digit m) = false.
Proof.
  intros Hm. destruct m as [|p]; [reflexivity|].
  do 4 (destruct p as [p|p|]; try reflexivity); lia.
Qed.

Lemma byte_nibbles (c : ascii) :
  (N_of_ascii c / 16 < 16)%N /\ (N_of_ascii c mod 16 < 16)%N /\
  ascii_of_N (16 * (N_of_ascii c / 16) + N_of_ascii c mod 16) = c.
Proof.
  pose proof (N_ascii_bounded c) as Hc. split; [|split].
  - apply N.Div0.div_lt_upper_bound. lia.
  - apply N.mod_lt. lia.
  - rewrite <- N.div_mod by lia. apply ascii_N_embedding.
Qed.

(** [bytes.fromhex(b.hex()) == b] *)
Lemma fromhex_hexlify (b : string) : fromhex (hexlify b) = Some b.
Proof.
  induction b as [|c b IH]; [reflexivity|].
  destruct (byte_nibbles c) as (Hhi & Hlo & Hc).
  cbn [hexlify fromhex].
  rewrite (hex_digit_not_space _ Hhi), (hex_val_digit _ Hhi), (hex_val_digit _ Hlo), IH, Hc.
  reflexivity.
Qed.

Lemma py_len_hexlify (b : string) : py_len (hexlify b) = 2 * String.length b.
Proof.
  induction b as [|c b IH]; [reflexivity|].
  destruct (byte_nibbles c) as (Hhi & Hlo & _).
  cbn [hexlify py_len String.length].
  rewrite (hex_digit_ascii _ Hhi), (hex_digit_ascii _ Hlo), IH. lia.
Qed.

(** [ObjectId(str(oid)) == oid] for every identifier of 12 bytes. *)
Lemma ObjectId_of_str_oid_str (o : ObjectId) :
  String.length (binary o) = 12 -> ObjectId_of_str (oid_str o) = Some o.
Proof.
  intros Hlen. unfold ObjectId_of_str, oid_str.
  rewrite py_len_hexlify, Hlen, fromhex_hexlify. destruct o. reflexivity.
Qed.

Lemma bytes_be_length (k : nat) (n : N) (acc : string) :
  String.length (bytes_be k n acc) = k + String.length acc.
Proof.
  revert n acc. induction k as [|k IH]; intros n acc; [reflexivity|].
  cbn [bytes_be]. rewrite IH. cbn [String.length]. lia.
Qed.

(** The identifiers the driver generates have 12 bytes. *)
Lemma generated_length (n : N) : String.length (binary (generated n)) = 12.
Proof. unfold generated. cbn [binary]. apply bytes_be_length. Qed.

Lemma oid_eqb_eq (a b : ObjectId) : oid_eqb a b = true <-> a = b.
Proof.
  unfold oid_eqb. rewrite String.eqb_eq. destruct a, b. simpl. split; congruence.
Qed.

(** *** [to_str_id] *)

(** X1.  [to_str_id] is idempotent: its result carries no usable [_id],
    so applying it again changes nothing. *)
Theorem to_str_id_idempotent (doc : document) :
  to_str_id py_str (to_str_id py_str doc) = to_str_id py_str doc /\
  truthy (dict_get (to_str_id py_str doc) "_id") = false.
Proof.
  assert (Hfalse : truthy (dict_get (to_str_id py_str doc) "_id") = false).
  { unfold to_str_id. destruct (truthy (dict_get doc "_id")) eqn:Ht; [|exact Ht].
    unfold dict_get. rewrite lookup_insert_ne by discriminate.
    rewrite lookup_delete_eq. reflexivity. }
  split; [|exact Hfalse].
  unfold to_str_id at 1. rewrite Hfalse. reflexivity.
Qed.

(** *** Seeding, call by call *)

Lemma stored_inserted_other (w : @World num) (c c' : string) (doc : document) :
  c <> c' -> stored (inserted c doc w) c' = stored w c'.
Proof.
  intros Hne. destruct w as [[d|] e]; [|reflexivity].
  unfold stored, inserted, collection. simpl.
  rewrite lookup_insert_ne by exact Hne. reflexivity.
Qed.

Lemma db_stored_all (ps : list Product) (w : @World num) (d : Database) :
  db w = Some d ->
  exists d' : Database,
    db (stored_all ps w) = Some d' /\
    outage d' = outage d /\
    length (calls d') = length (calls d) + length ps /\
    map snd (collection d' "product")
      = map snd (collection d "product") ++ map Product_model_dump ps /\
    environ (stored_all ps w) = environ w.
Proof.
  revert w d. induction ps as [|p ps IH]; intros w d Hdb; simpl.
  - exists d. rewrite app_nil_r, Nat.add_0_r. auto.
  - pose proof (db_inserted w d "product" (Product_model_dump p) Hdb) as Hdb1.
    destruct (IH _ _ Hdb1) as (d' & Hd' & Hout & Hlen & Hcoll & Henv).
    exists d'. split; [exact Hd'|]. split; [exact Hout|]. split; [|split].
    + rewrite Hlen. simpl. rewrite length_app. simpl. lia.
    + rewrite Hcoll.
      match goal with
      | |- map snd (collection ?d1 _) ++ _ = _ =>
          assert (Hc : collection d1 "product"
                       = collection d "product"
                         ++ [(generated (next_oid d), Product_model_dump p)])
            by (unfold collection; simpl; rewrite lookup_insert_eq; reflexivity);
          rewrite Hc
      end.
      rewrite map_app, <- app_assoc. reflexivity.
    + rewrite Henv. unfold inserted. rewrite Hdb. reflexivity.
Qed.

Lemma seed_loop_all (ps : list Product) (w : @World num) (d : Database) :
  db w = Some d ->
  (forall k, k < length ps -> outage d (length (calls d) + k) = None) ->
  for_each ps (fun p => _ <- insert_one "product" (Product_model_dump p) ;; ret tt) w
  = (Return tt, stored_all ps w).
Proof.
  revert w d. induction ps as [|p ps IH]; intros w d Hdb Hout; simpl; [reflexivity|].
  unfold bind at 1. unfold bind at 1.
  rewrite (insert_one_stored w d "product" _ Hdb)
    by (rewrite <- (Hout 0) by (simpl; lia); f_equal; lia).
  unfold ret at 1.
  pose proof (db_inserted w d "product" (Product_model_dump p) Hdb) as Hdb1.
  apply (IH _ _ Hdb1). intros k Hk. simpl. rewrite length_app. simpl.
  rewrite <- (Hout (S k)) by (simpl; lia). f_equal. lia.
Qed.

(** The loop stops at the first insert that raises; what was inserted
    before stays. *)
Lemma seed_loop_fails (ps : list Product) (j : nat) (p : Product) (msg : string)
    (w : @World num) (d : Database) :
  db w = Some d ->
  ps !! j = Some p ->
  (forall k, k < j -> outage d (length (calls d) + k) = None) ->
  outage d (length (calls d) + j) = Some msg ->
  for_each ps (fun p => _ <- insert_one "product" (Product_model_dump p) ;; ret tt) w
  = (Raise (Error msg),
     log [InsertOne "product" (Product_model_dump p)] (stored_all (take j ps) w)).
Proof.
  revert j w d. induction ps as [|q ps IH]; intros j w d Hdb Hj Hok Hfail; [discriminate|].
  destruct j as [|j].
  - injection Hj as ->. simpl. unfold bind at 1. unfold bind at 1.
    unfold insert_one, driver_call. rewrite Hdb.
    rewrite Nat.add_0_r in Hfail. rewrite Hfail. unfold log. rewrite Hdb. reflexivity.
  - simpl in Hj. simpl. unfold bind at 1. unfold bind at 1.
    rewrite (insert_one_stored w d "product" _ Hdb)
      by (rewrite <- (Hok 0) by lia; f_equal; lia).
    unfold ret at 1.
    pose proof (db_inserted w d "product" (Product_model_dump q) Hdb) as Hdb1.
    apply (IH j _ _ Hdb1 Hj).
    + intros k Hk. simpl. rewrite length_app. simpl.
      rewrite <- (Hok (S k)) by lia. f_equal. lia.
    + simpl. rewrite length_app. simpl. rewrite <- Hfail. f_equal. lia.
Qed.

Lemma startup_runs (w : @World num) (d : Database) :
  db w = Some d -> collection d "product" = [] ->
  (forall k, k < 6 -> outage d (length (calls d) + k) = None) ->
  startup w
  = (Return tt, stored_all sample_products (log [CountDocuments "product"] w)).
Proof.
  intros Hdb Hempty Hout. unfold startup, seed_products, bind at 1, get_db.
  rewrite Hdb. unfold bind at 1. rewrite (count_documents_db w d "product" Hdb).
  rewrite <- (Nat.add_0_r (length (calls d))), (Hout 0) by lia.
  rewrite Hempty. simpl length. simpl Z.of_nat. simpl Z.ltb. cbv iota.
  pose proof (db_log_some [CountDocuments "product"] w d Hdb) as Hdb1.
  apply (seed_loop_all sample_products _ _ Hdb1).
  intros k Hk. simpl. rewrite length_app. simpl. simpl in Hk.
  rewrite <- (Hout (S k)) by lia. f_equal. lia.
Qed.


(** X2.  Seeding is idempotent across restarts: when the process starts
    on an empty product collection and then starts again, with no driver
    call failing, the second start only counts the documents; it stores
    nothing, so the collection holds five products, not ten. *)
Theorem seeding_twice_is_seeding_once (w : @World num) (d : Database) :
  db w = Some d -> collection d "product" = [] ->
  (forall k, k < 7 -> outage d (length (calls d) + k) = None) ->
  exists w1 w2 : World,
    startup w = (Return tt, w1) /\
    startup w1 = (Return tt, w2) /\
    same_store w1 w2 /\
    issued w1 w2 = [CountDocuments "product"] /\
    map snd (stored w2 "product") = map Product_model_dump sample_products.
Proof.
  intros Hdb Hempty Hout.
  assert (Hout6 : forall k, k < 6 -> outage d (length (calls d) + k) = None)
    by (intros k Hk; apply Hout; lia).
  pose proof (startup_runs w d Hdb Hempty Hout6) as Hrun.
  set (w0 := log [CountDocuments "product"] w) in *.
  pose proof (db_log_some [CountDocuments "product"] w d Hdb) as Hdb0. fold w0 in Hdb0.
  destruct (db_stored_all sample_products w0 _ Hdb0)
    as (d1 & Hdb1 & Hout1 & Hlen1 & Hcoll1 & _).
  match type of Hdb0 with
  | _ = Some ?d0 =>
      assert (Hc0 : collection d0 "product" = []) by exact Hempty;
      rewrite Hc0 in Hcoll1
  end.
  simpl in Hout1, Hlen1. simpl app in Hcoll1.
  set (w1 := stored_all sample_products w0) in *.
  assert (Hne : collection d1 "product" <> []).
  { intros Hnil. rewrite Hnil in Hcoll1. discriminate Hcoll1. }
  assert (Hquiet : outage d1 (length (calls d1)) = None).
  { rewrite Hout1, Hlen1, length_app. simpl.
    rewrite <- (Hout 6) by lia. f_equal. lia. }
  exists w1, (log [CountDocuments "product"] w1).
  split; [exact Hrun|]. split.
  - unfold startup, seed_products, bind at 1, get_db. rewrite Hdb1.
    unfold bind. rewrite (count_documents_db w1 d1 "product" Hdb1), Hquiet.
    destruct (collection d1 "product") as [|e l]; [congruence|]. reflexivity.
  - split; [apply same_store_log|]. split; [apply (issued_log _ w1 d1 Hdb1)|].
    rewrite stored_log. unfold stored. rewrite Hdb1. exact Hcoll1.
Qed.

(** X3.  Seeding is not atomic: when insert number [j] of the five raises,
    [seed_products] raises that error and the [j] products inserted before
    stay in the collection.  Nothing is rolled back, and since the
    collection is then no longer empty for [j > 0], a later start does not
    complete the seeding. *)
Theorem seeding_stops_at_failed_insert (w : @World num) (d : Database)
    (j : nat) (msg : string) :
  db w = Some d -> collection d "product" = [] ->
  j < 5 ->
  (forall k, k <= j -> outage d (length (calls d) + k) = None) ->
  outage d (length (calls d) + S j) = Some msg ->
  exists w' : World,
    seed_products w = (Raise (Error msg), w') /\
    map snd (stored w' "product") = map Product_model_dump (take j sample_products) /\
    length (stored w' "product") = j.
Proof.
  intros Hdb Hempty Hj Hok Hfail.
  destruct (sample_products !! j) as [p|] eqn:Hp.
  2:{ apply lookup_ge_None in Hp. simpl in Hp. lia. }
  set (w0 := log [CountDocuments "product"] w).
  pose proof (db_log_some [CountDocuments "product"] w d Hdb) as Hdb0. fold w0 in Hdb0.
  destruct (db_stored_all (take j sample_products) w0 _ Hdb0)
    as (d1 & Hdb1 & _ & _ & Hcoll1 & _).
  match type of Hdb0 with
  | _ = Some ?d0 =>
      assert (Hc0 : collection d0 "product" = []) by exact Hempty;
      rewrite Hc0 in Hcoll1
  end.
  simpl app in Hcoll1.
  exists (log [InsertOne "product" (Product_model_dump p)]
              (stored_all (take j sample_products) w0)).
  split; [|split].
  - unfold seed_products, bind at 1, get_db. rewrite Hdb.
    unfold bind at 1. rewrite (count_documents_db w d "product" Hdb).
    rewrite <- (Nat.add_0_r (length (calls d))), (Hok 0) by lia.
    rewrite Hempty. simpl length. simpl Z.of_nat. simpl Z.ltb. cbv iota.
    apply (seed_loop_fails sample_products j p msg w0 _ Hdb0 Hp).
    + intros k Hk. simpl. rewrite length_app. simpl.
      rewrite <- (Hok (S k)) by lia. f_equal. lia.
    + simpl. rewrite length_app. simpl. rewrite <- Hfail. f_equal. lia.
  - rewrite stored_log. unfold stored. rewrite Hdb1. exact Hcoll1.
  - rewrite stored_log. unfold stored. rewrite Hdb1.
    rewrite <- (length_map snd), Hcoll1, length_map, length_take. simpl. lia.
Qed.

(** X4.  Listing after a start on an empty store returns the five sample
    products in seeding order: their titles and prices are the literal ones,
    each document has a string [id] and no [_id]. *)
Theorem listing_after_startup (w : @World num) (d : Database) :
  db w = Some d -> collection d "product" = [] ->
  (forall k, k < 7 -> outage d (length (calls d) + k) = None) ->
  exists (w1 w2 : World) (l : list document),
    startup w = (Return tt, w1) /\
    list_products py_str w1 = (Return l, w2) /\
    map (fun p => p !! "title") l =
      [Some (VStr "Free-Range Eggs (12 pcs)");
       Some (VStr "Organic Eggs (12 pcs)");
       Some (VStr "Omega-3 Enriched Eggs (12 pcs)");
       Some (VStr "Quail Eggs (24 pcs)");
       Some (VStr "Duck Eggs (6 pcs)")] /\
    map (fun p => p !! "price") l =
      [Some (VFloat (fdec 499 2)); Some (VFloat (fdec 599 2)); Some (VFloat (fdec 649 2));
       Some (VFloat (fdec 749 2)); Some (VFloat (fdec 449 2))] /\
    Forall (fun p => p !! "_id" = None /\ exists s, p !! "id" = Some (VStr s)) l.
Proof.
  intros Hdb Hempty Hout.
  assert (Hout6 : forall k, k < 6 -> outage d (length (calls d) + k) = None)
    by (intros k Hk; apply Hout; lia).
  pose proof (startup_runs w d Hdb Hempty Hout6) as Hrun.
  set (w0 := log [CountDocuments "product"] w) in *.
  pose proof (db_log_some [CountDocuments "product"] w d Hdb) as Hdb0. fold w0 in Hdb0.
  destruct (db_stored_all sample_products w0 _ Hdb0)
    as (d1 & Hdb1 & Hout1 & Hlen1 & Hcoll1 & _).
  match type of Hdb0 with
  | _ = Some ?d0 =>
      assert (Hc0 : collection d0 "product" = []) by exact Hempty;
      rewrite Hc0 in Hcoll1
  end.
  simpl in Hout1, Hlen1.
  change (map snd (collection d1 "product") = map Product_model_dump sample_products)
    in Hcoll1.
  set (w1 := stored_all sample_products w0) in *.
  assert (Hquiet : outage d1 (length (calls d1)) = None).
  { rewrite Hout1, Hlen1, length_app. simpl.
    rewrite <- (Hout 6) by lia. f_equal. lia. }
  assert (Hone : forall e : ObjectId * document,
             to_str_id py_str (returned e)
             = <["id" := VStr (py_str (VOid (fst e)))]> (delete "_id" (snd e))).
  { intros e. rewrite (to_str_id_with_id (returned e) (VOid (fst e))).
    - unfold returned. rewrite delete_insert_eq. reflexivity.
    - unfold returned. apply lookup_insert_eq.
    - reflexivity. }
  assert (Hkey : forall k : string, k <> "_id" -> k <> "id" ->
             map (fun p : document => p !! k)
                 (map (to_str_id py_str) (map returned (collection d1 "product")))
             = map (fun doc : document => doc !! k)
                   (map Product_model_dump sample_products)).
  { intros k Hk1 Hk2. rewrite <- Hcoll1, !map_map. apply map_ext. intros e.
    rewrite Hone, lookup_insert_ne by congruence. apply lookup_delete_ne. congruence. }
  eexists w1, _, _. split; [exact Hrun|]. split.
  - rewrite (list_products_db w1 d1 Hdb1), Hquiet. reflexivity.
  - split; [rewrite Hkey by discriminate; reflexivity|].
    split; [rewrite Hkey by discriminate; reflexivity|].
    apply Forall_forall. intros p Hp.
    apply list_elem_of_fmap in Hp as (q & -> & Hq).
    apply list_elem_of_fmap in Hq as (e & -> & _).
    rewrite Hone. split.
    + rewrite lookup_insert_ne by discriminate. apply lookup_delete_eq.
    + eexists. apply lookup_insert_eq.
Qed.

(** *** [create_order]: edges of the product lookup *)

Lemma find_by_id_member (l : list (ObjectId * document)) (e : ObjectId * document) :
  e ∈ l ->
  exists e', e' ∈ l /\ fst e' = fst e /\ find_by_id l (fst e) = Some (returned e').
Proof.
  intros He. unfold find_by_id.
  destruct (List.find (fun x => oid_eqb (fst x) (fst e)) l) as [e'|] eqn:Hf.
  - apply List.find_some in Hf as [Hin Heq]. exists e'.
    split; [apply list_elem_of_In, Hin|]. split; [|reflexivity].
    apply oid_eqb_eq, Heq.
  - exfalso. apply list_elem_of_In in He.
    pose proof (List.find_none _ _ Hf e He) as Hno. simpl in Hno.
    assert (Hy : oid_eqb (fst e) (fst e) = true) by (apply oid_eqb_eq; reflexivity).
    congruence.
Qed.

(** X5.  The identifier under which a stored product is listed (the
    string form of its 12-byte ObjectId) is one [create_order] accepts: with
    usable products, a lookup that does not fail and a quantity that
    converts to float, an order for that identifier returns a body, the
    lookup finds a product carrying that ObjectId, and the total is that
    product's price times the quantity, rounded. *)
Theorem listed_id_is_orderable (w : @World num) (d : Database) (e : ObjectId * document)
    (q : positive) (qty : num) (payload : CreateOrderInput) :
  db w = Some d -> products_usable d ->
  e ∈ collection d "product" -> String.length (binary (fst e)) = 12 ->
  outage d (length (calls d)) = None ->
  of_int (Z.pos q) = Some qty ->
  in_items payload = [{| product_id := oid_str (fst e); quantity := q |}] ->
  exists (p : document) (l : num * string) (resp : document) (w' : World),
    stored_product d (oid_str (fst e)) = Some p /\
    p !! "_id" = Some (VOid (fst e)) /\
    priced p = Some l /\
    create_order payload w = (Return resp, w') /\
    resp !! "total" = Some (VFloat (round2 (fadd fzero (fmul (fst l) qty)))).
Proof.
  intros Hdb Huse He Hlen Hout Hq Hits.
  destruct (find_by_id_member _ e He) as (e' & He' & Hfst & Hfind).
  unfold products_usable in Huse. rewrite Forall_forall in Huse.
  destruct (Huse e' He') as [l Hl].
  assert (Hres : resolved_all w (ncalls w) (in_items payload)
                 = Some [{| line_price := fst l; line_title := snd l;
                            line_quantity := qty |}]).
  { rewrite Hits. simpl. unfold resolved, price_title_of, ncalls, resolve. rewrite Hdb.
    cbn [product_id quantity].
    rewrite (ObjectId_of_str_oid_str _ Hlen), Hout, Hfind, Hl, Hq. reflexivity. }
  assert (Hne : in_items payload <> []) by (rewrite Hits; discriminate).
  pose proof (create_order_resolved w payload _ Hne Hres) as Hco. cbv zeta in Hco.
  exists (returned e'), l.
  rewrite Hdb in Hco.
  destruct (outage d _) in Hco;
    (eexists _, _; split;
     [unfold stored_product; rewrite (ObjectId_of_str_oid_str _ Hlen); exact Hfind|];
     split; [unfold returned; rewrite Hfst; apply lookup_insert_eq|];
     split; [exact Hl|]; split; [exact Hco|]; reflexivity).
Qed.

(** X6.  A request whose first item carries a product id that [ObjectId]
    rejects is answered 404 without any driver call: [ObjectId] raises
    before [find_one] is reached, so the world is exactly as it was. *)
Theorem malformed_id_costs_no_driver_call (w : @World num) (d : Database)
    (payload : CreateOrderInput) (it : OrderItemInput) (rest : list OrderItemInput) :
  db w = Some d ->
  in_items payload = it :: rest ->
  ObjectId_of_str (product_id it) = None ->
  create_order payload w
  = (Raise (HTTPException 404 ("Product not found: " +:+ product_id it)), w).
Proof.
  intros Hdb Hits Hbad.
  rewrite (create_order_unresolved w d payload [] it rest [] Hdb Hits eq_refl).
  - simpl. unfold lookup_calls. rewrite Hbad. simpl. rewrite log_nil. reflexivity.
  - unfold resolve. rewrite Hbad. reflexivity.
Qed.

(** X7.  A stored product whose price [float] cannot convert makes the
    request fail with an exception that is no [HTTPException]: the client
    sees a server error.  Nothing is stored. *)
Theorem unusable_price_is_a_server_error (w : @World num) (d : Database)
    (payload : CreateOrderInput) (it : OrderItemInput) (rest : list OrderItemInput)
    (p : document) :
  db w = Some d ->
  in_items payload = it :: rest ->
  resolve d (length (calls d)) (product_id it) = Some p ->
  py_float (dict_get_or p "price" (VInt 0)) = None ->
  exists (msg : string) (w' : World),
    create_order payload w = (Raise (Error msg), w') /\
    same_store w w' /\ added w w' "order" = [].
Proof.
  intros Hdb Hits Hres Hprice. unfold create_order. rewrite Hits.
  cbn [build_items]. unfold bind at 1. unfold bind at 1.
  rewrite (price_and_title_db w d it Hdb), Hres, Hprice.
  eexists _, _. split; [reflexivity|]. split; [apply same_store_log|].
  apply added_log. reflexivity.
Qed.

(** X8.  A stored product with neither [price] nor [title] is sold at the
    defaults of the two [get] calls: price [float(0)] and title "Eggs".  An
    order of that single product returns a body with total
    [round(0.0 + 0.0*q, 2)], and the order stored, if any, holds one item
    with that title, price and subtotal. *)
Theorem missing_price_and_title_default (w : @World num) (d : Database)
    (payload : CreateOrderInput) (it : OrderItemInput) (p : document) (zero qty : num) :
  db w = Some d ->
  in_items payload = [it] ->
  resolve d (length (calls d)) (product_id it) = Some p ->
  p !! "price" = None -> p !! "title" = None ->
  of_int 0 = Some zero -> of_int (Z.pos (quantity it)) = Some qty ->
  exists (resp : document) (w' : World),
    create_order payload w = (Return resp, w') /\
    resp !! "total" = Some (VFloat (round2 (fadd fzero (fmul zero qty)))) /\
    Forall (fun e =>
              snd e !! "items" =
                Some (VList [VDoc (OrderItem_model_dump
                                     {| item_product_id := product_id it;
                                        item_title := "Eggs";
                                        item_price := zero;
                                        item_quantity := Z.pos (quantity it);
                                        item_subtotal := fmul zero qty |})]))
           (added w w' "order").
Proof.
  intros Hdb Hits Hres Hprice Htitle Hzero Hq.
  assert (Hr : resolved_all w (ncalls w) (in_items payload)
               = Some [{| line_price := zero; line_title := "Eggs";
                          line_quantity := qty |}]).
  { rewrite Hits. simpl. unfold resolved, price_title_of, ncalls. rewrite Hdb, Hres.
    unfold priced, dict_get_or. rewrite Hprice, Htitle. simpl. rewrite Hzero, Hq.
    reflexivity. }
  assert (Hne : in_items payload <> []) by (rewrite Hits; discriminate).
  pose proof (create_order_resolved w payload _ Hne Hr) as Hco. cbv zeta in Hco.
  rewrite Hdb in Hco. rewrite Hits in Hco. simpl zip_with in Hco.
  set (cs := flat_map _ [it]) in Hco.
  pose proof (db_log_some cs w d Hdb) as Hdb1.
  assert (Hst : stored (log cs w) "order" = stored w "order") by apply stored_log.
  destruct (outage d _) in Hco; eexists _, _; (split; [exact Hco|]); (split; [reflexivity|]).
  - rewrite (added_log w (log cs w) _ "order" Hst). constructor.
  - rewrite (added_inserted w (log cs w) _ "order" _ Hdb1 Hst).
    constructor; [reflexivity|constructor].
Qed.

(** *** [create_order]: a quantity no float holds *)

Lemma price_title_of_log (cs : list Call) (w : @World num) (k : nat) (it : OrderItemInput) :
  price_title_of (log cs w) k it = price_title_of w k it.
Proof. destruct w as [[d|] e]; reflexivity. Qed.

Lemma price_and_title_priced (w : @World num) (it : OrderItemInput) (pt : num * string) :
  price_title_of w (ncalls w) it = Some pt ->
  price_and_title it w
    = (Return (fst pt, VStr (snd pt)), log (lookup_calls (product_id it)) w).
Proof.
  unfold price_title_of, ncalls. destruct (db w) as [d|] eqn:Hdb.
  - rewrite (price_and_title_db w d it Hdb).
    destruct (resolve d (length (calls d)) (product_id it)) as [p|]; [|discriminate].
    unfold priced. destruct (py_float _) as [prc|]; [|discriminate].
    destruct (dict_get_or p "title" (VStr "Eggs")); try discriminate.
    intros [= <-]. reflexivity.
  - intros [= <-]. rewrite (price_and_title_no_db w it Hdb), (db_log_none _ w Hdb).
    reflexivity.
Qed.

Lemma price_title_of_after_lookup (w : @World num) (x : OrderItemInput) (l : Line)
    (n : nat) (it : OrderItemInput) :
  resolved w (ncalls w) x = Some l ->
  price_title_of (log (lookup_calls (product_id x)) w)
                 (ncalls (log (lookup_calls (product_id x)) w) + n) it
  = price_title_of w (ncalls w + S n) it.
Proof.
  intros Hr. rewrite price_title_of_log. destruct (db w) as [d|] eqn:Hdb.
  - rewrite (ncalls_log _ w d Hdb).
    unfold resolved, price_title_of in Hr. rewrite Hdb in Hr.
    unfold resolve, lookup_calls in *.
    destruct (ObjectId_of_str (product_id x)); [|discriminate]. simpl.
    replace (ncalls w + 1 + n) with (ncalls w + S n) by lia. reflexivity.
  - unfold price_title_of. rewrite Hdb. reflexivity.
Qed.

(** The loop raises at the first item whose quantity does not convert,
    after that item's lookup. *)
Lemma build_items_overflow (pre : list OrderItemInput) (it : OrderItemInput)
    (post : list OrderItemInput) (lines : list Line) (pt : num * string)
    (w : @World num) (acc : list OrderItem) (total : num) :
  resolved_all w (ncalls w) pre = Some lines ->
  price_title_of w (ncalls w + length pre) it = Some pt ->
  of_int (Z.pos (quantity it)) = None ->
  build_items (pre ++ it :: post) acc total w =
    (Raise (Error "int too large to convert to float"),
     log (flat_map (fun it => lookup_calls (product_id it)) (pre ++ [it])) w).
Proof.
  revert lines w acc total.
  induction pre as [|x pre IH]; intros lines w acc total; simpl.
  - intros _ Hpt Hq. rewrite Nat.add_0_r in Hpt. unfold bind at 1.
    rewrite (price_and_title_priced w it pt Hpt). cbv beta iota. rewrite Hq.
    rewrite app_nil_r. reflexivity.
  - destruct (resolved w (ncalls w) x) as [l|] eqn:Hl; [|discriminate].
    destruct (resolved_all w (S (ncalls w)) pre) as [ls|] eqn:Hls; [|discriminate].
    intros _ Hpt Hq. unfold bind at 1.
    destruct (price_and_title_resolved w x l Hl) as [Hx Hqx].
    rewrite Hx. cbv beta iota. rewrite Hqx.
    unfold bind at 1. unfold OrderItem_ at 1. unfold ret at 1.
    rewrite <- (resolved_all_after_lookup w x l pre Hl) in Hls.
    rewrite <- (price_title_of_after_lookup w x l (length pre) it Hl) in Hpt.
    rewrite (IH ls _ _ _ Hls Hpt Hq), log_log. reflexivity.
Qed.

(** X9.  A quantity that no float holds is a server error.  When the
    items before [it] resolve, and [it] has a price and title (its product
    is found and usable, or there is no database handle) but a quantity
    that does not convert to float, [create_order] raises an exception that
    is no [HTTPException], after the lookup of [it] and before any insert:
    nothing is stored. *)
Theorem oversized_quantity_is_a_server_error (w : @World num) (payload : CreateOrderInput)
    (pre : list OrderItemInput) (it : OrderItemInput) (post : list OrderItemInput)
    (lines : list Line) (pt : num * string) :
  in_items payload = pre ++ it :: post ->
  resolved_all w (ncalls w) pre = Some lines ->
  price_title_of w (ncalls w + length pre) it = Some pt ->
  of_int (Z.pos (quantity it)) = None ->
  exists w' : World,
    create_order payload w = (Raise (Error "int too large to convert to float"), w') /\
    same_store w w' /\ added w w' "order" = [] /\
    Forall (fun c => exists o, c = FindOne "product" o) (issued w w').
Proof.
  intros Hits Hpre Hpt Hq. eexists. split.
  - unfold create_order. rewrite Hits.
    destruct (pre ++ it :: post) as [|it0 its0] eqn:E; [destruct pre; discriminate|].
    rewrite <- E. unfold bind at 1.
    rewrite (build_items_overflow pre it post lines pt w [] fzero Hpre Hpt Hq).
    reflexivity.
  - split; [apply same_store_log|]. split; [apply added_log; reflexivity|].
    destruct (db w) as [d|] eqn:Hdb.
    + rewrite (issued_log _ w d Hdb). apply lookups_are_finds.
    + unfold issued. rewrite Hdb. constructor.
Qed.

(** *** [test_database]: the fields that do not depend on the driver *)

(** X10.  In every world the body of [test_database] reports the backend
    as running; its [database_url] and [database_name] fields tell whether
    the environment variables DATABASE_URL and DATABASE_NAME are set to a
    non-empty string, whatever the database branch wrote there before; and
    [connection_status] is "Connected" exactly when a database handle
    exists. *)
Theorem test_database_flags (w : @World num) :
  exists (resp : document) (w' : World),
    test_database w = (Return resp, w') /\
    resp !! "backend" = Some (VStr "✅ Running") /\
    resp !! "database_url" =
      Some (VStr (if env_set (environ w !! "DATABASE_URL") then "✅ Set" else "❌ Not Set")) /\
    resp !! "database_name" =
      Some (VStr (if env_set (environ w !! "DATABASE_NAME") then "✅ Set" else "❌ Not Set")) /\
    resp !! "connection_status" =
      Some (VStr (match db w with Some _ => "Connected" | None => "Not Connected" end)).
Proof.
  unfold test_database, bind at 1, try_except at 1, bind at 1, get_db at 1.
  destruct (db w) as [d|] eqn:Hdb.
  - unfold try_except, bind at 1, list_collection_names, driver_call. rewrite Hdb.
    destruct (outage d (length (calls d))) as [msg|] eqn:Hout; cbn [exn_str];
      unfold bind, ret, getenv; cbn [environ]; eexists _, _;
      (split; [reflexivity|]); repeat split; by simplify_map_eq.
  - unfold bind, ret, getenv. eexists _, _.
    (split; [reflexivity|]); repeat split; by simplify_map_eq.
Qed.

End Properties.

(* ------------------------------------------------------------------ *)
(** ** The statements on concrete worlds *)

Lemma seeded_products_usable : products_usable (seeded_db no_outage).
Proof.
  destruct (startup_products_usable fresh_world empty_db eq_refl eq_refl)
    as (w' & d' & Hrun & Hdb' & Huse); [intros k _; reflexivity|].
  assert (Hc : seeded_contents = contents d').
  { unfold seeded_contents. rewrite Hrun. simpl. rewrite Hdb'. reflexivity. }
  unfold products_usable, collection in *. simpl contents. rewrite Hc. exact Huse.
Qed.

Lemma create_order_empty_items_witness :
  in_items (order_of [] "card") = [] /\
  create_order (order_of [] "card") seeded_world
  = (Raise (HTTPException 400 "No items in order"), seeded_world).
Proof.
  split; [reflexivity|].
  apply (create_order_empty_items seeded_world (order_of [] "card")). reflexivity.
Defined.

Lemma create_order_total_witness :
  in_items (two_lines_order "card") <> [] /\
  resolved_all seeded_world (ncalls seeded_world) (in_items (two_lines_order "card"))
    = Some two_lines /\
  exists (resp : gmap string value) (w' : World) (om : Order),
    create_order (two_lines_order "card") seeded_world = (Return resp, w') /\
    resp !! "total" = Some (VFloat (round2 (fsum (map amount two_lines)))) /\
    items om = zip_with item_of (in_items (two_lines_order "card")) two_lines /\
    Forall (fun i => exists qty, of_int (item_quantity i) = Some qty /\
                                 item_subtotal i = fmul (item_price i) qty)
           (items om) /\
    total_amount om = round2 (fsum (map item_subtotal (items om))) /\
    Order_model_dump om !! "total_amount" = Some (VFloat (total_amount om)) /\
    added seeded_world w' "order" =
      match db seeded_world with
      | None => []
      | Some d =>
          match outage d (ncalls seeded_world + length (in_items (two_lines_order "card"))) with
          | Some _ => []
          | None => [(generated (next_oid d), Order_model_dump om)]
          end
      end.
Proof.
  split; [discriminate|]. split; [vm_compute; reflexivity|].
  apply (create_order_total seeded_world (two_lines_order "card") two_lines).
  - discriminate.
  - vm_compute. reflexivity.
Defined.

(** On binary64 the total of that order is 20.96. *)
Example two_lines_total :
  two_lines_response !! "total" = Some (VFloat (fdec 2096 2)) /\
  Binary64.repr (fdec 2096 2) = "20.96".
Proof. split; vm_compute; reflexivity. Qed.

(** C1 as stated fails.  The order is not empty, its quantity is at least
    1 and its product is stored with a usable price and title, yet the
    request is not answered with a total: converting the quantity to float
    raises [OverflowError], which is no [HTTPException]. *)
Lemma huge_quantity_is_a_server_error :
  in_items huge_order <> [] /\
  Forall (fun it => (1 <= Z.pos (quantity it))%Z) (in_items huge_order) /\
  Forall (fun it => exists p, stored_product (seeded_db no_outage) (product_id it) = Some p /\
                              is_Some (priced p))
         (in_items huge_order) /\
  of_int (Z.pos huge) = None /\
  fst (create_order huge_order seeded_world)
    = Raise (Error "int too large to convert to float").
Proof.
  split; [discriminate|]. split; [repeat constructor; discriminate|]. split.
  - repeat constructor. eexists. split; [vm_compute; reflexivity|].
    eexists. vm_compute. reflexivity.
  - split; vm_compute; reflexivity.
Qed.

Lemma response_matches_stored_order_witness :
  db seeded_world = Some (seeded_db no_outage) /\
  (in_items (two_lines_order "card") <> [] /\
   resolved_all seeded_world (ncalls seeded_world) (in_items (two_lines_order "card"))
     = Some two_lines /\
   exists (resp : gmap string value) (w' : World),
     create_order (two_lines_order "card") seeded_world = (Return resp, w')) /\
  (create_order (two_lines_order "card") seeded_world
     = (Return two_lines_response, two_lines_world) /\
   exists (lookups : list Call) (doc : gmap string value) (t : spec_float) (s : string),
     issued seeded_world two_lines_world = lookups ++ [InsertOne "order" doc] /\
     doc !! "total_amount" = Some (VFloat t) /\
     two_lines_response !! "total" = Some (VFloat t) /\
     doc !! "status" = Some (VStr s) /\ two_lines_response !! "status" = Some (VStr s) /\
     added seeded_world two_lines_world "order"
       = [(generated (next_oid (seeded_db no_outage)), doc)] /\
     two_lines_response !! "order_id"
       = Some (VStr (oid_str (generated (next_oid (seeded_db no_outage)))))).
Proof.
  assert (Hres : resolved_all seeded_world (ncalls seeded_world)
                              (in_items (two_lines_order "card")) = Some two_lines)
    by (vm_compute; reflexivity).
  assert (Hne : in_items (two_lines_order "card") <> []) by discriminate.
  assert (Hrun : create_order (two_lines_order "card") seeded_world
                 = (Return two_lines_response, two_lines_world))
    by (vm_compute; reflexivity).
  destruct (response_matches_stored_order seeded_world (seeded_db no_outage)
              (two_lines_order "card") eq_refl) as [Hanswer Hstored].
  split; [reflexivity|]. split.
  - split; [exact Hne|]. split; [exact Hres|]. exact (Hanswer two_lines Hne Hres).
  - split; [exact Hrun|]. exact (Hstored two_lines_response two_lines_world Hrun).
Defined.

(** On the seeded store the insert succeeds: the order is stored under the
    identifier the body carries, with the body's total and status. *)
Example two_lines_order_is_stored :
  two_lines_response !! "order_id" = Some (VStr "000000000000000000000006") /\
  map (fun e => (oid_str (fst e), snd e !! "total_amount", snd e !! "status"))
      (added seeded_world two_lines_world "order")
  = [("000000000000000000000006", Some (VFloat (fdec 2096 2)), Some (VStr "paid"))].
Proof. split; vm_compute; reflexivity. Qed.

(** Where the insert fails, nothing is stored and the body carries the
    placeholder id. *)
Example failed_insert_stores_nothing :
  (exists resp : gmap string value,
     fst (create_order organic_order insert_fails_world) = Return resp /\
     resp !! "order_id" = Some (VStr "demo-order-id")) /\
  added insert_fails_world (snd (create_order organic_order insert_fails_world)) "order" = [].
Proof.
  split; [eexists; split; vm_compute; reflexivity|]. vm_compute. reflexivity.
Qed.


(** The only lookup that request issued is the one of its first item. *)
Example broken_order_lookups :
  issued seeded_world (snd (create_order broken_order seeded_world))
  = [FindOne "product" (generated 1)].
Proof. vm_compute. reflexivity. Qed.

(** A string of 24 characters with blanks between its bytes is accepted by
    [ObjectId]: the lookup is issued, finds nothing, and the answer is 404. *)
Example spaced_id_is_looked_up :
  ObjectId_of_str spaced_id = Some (Oid (bytes_be 11 1 EmptyString)) /\
  create_order (order_of [(spaced_id, 1%positive)] "card") seeded_world
  = (Raise (HTTPException 404 ("Product not found: " +:+ spaced_id)),
     log [FindOne "product" (Oid (bytes_be 11 1 EmptyString))] seeded_world).
Proof. split; vm_compute; reflexivity. Qed.




(** C2 on the code.  A request that pays by "paypal", which is neither
    "card" nor "cod", is answered with status "pending", and the order it
    stores carries the payment method "card" together with the status
    "pending". *)
Lemma unknown_payment_method_is_stored_card_pending :
  (exists resp : gmap string value,
     fst (create_order (two_lines_order "paypal") seeded_world) = Return resp /\
     resp !! "status" = Some (VStr "pending")) /\
  map (fun e => (snd e !! "payment_method", snd e !! "status"))
      (added seeded_world (snd (create_order (two_lines_order "paypal") seeded_world)) "order")
  = [(Some (VStr "card"), Some (VStr "pending"))].
Proof.
  split.
  - eexists. split; vm_compute; reflexivity.
  - vm_compute. reflexivity.
Qed.

(** The same request paying by "card" and by "cod", for comparison. *)
Example known_payment_methods :
  map (fun e => (snd e !! "payment_method", snd e !! "status"))
      (added seeded_world (snd (create_order (two_lines_order "card") seeded_world)) "order")
  = [(Some (VStr "card"), Some (VStr "paid"))] /\
  map (fun e => (snd e !! "payment_method", snd e !! "status"))
      (added seeded_world (snd (create_order (two_lines_order "cod") seeded_world)) "order")
  = [(Some (VStr "cod"), Some (VStr "pending"))].
Proof. split; vm_compute; reflexivity. Qed.

(** C5 as stated fails.  With a database handle whose server cannot be
    reached, the product listing raises instead of returning the demo
    product, and an order is answered 404 instead of 200.  When only the
    insert fails, the order is answered 200 with the placeholder id, but its
    total is the stored price 5.99, not the fallback 4.99. *)
Lemma storage_failure_is_surfaced :
  is_Some (db unreachable_world) /\
  fst (list_products Builtins.str unreachable_world) = Raise (Error "connection refused") /\
  fst (create_order organic_order unreachable_world)
    = Raise (HTTPException 404 "Product not found: 000000000000000000000002") /\
  (exists resp : gmap string value,
     fst (create_order organic_order insert_fails_world) = Return resp /\
     resp !! "order_id" = Some (VStr "demo-order-id") /\
     resp !! "total" = Some (VFloat (fdec 599 2)) /\
     of_int 1 = Some (Binary64.of_Z 1) /\
     fdec 599 2 <> round2 (fsum [fmul (fdec 499 2) (Binary64.of_Z 1)])).
Proof.
  split; [eexists; reflexivity|].
  split; [vm_compute; reflexivity|].
  split; [vm_compute; reflexivity|].
  eexists. split; [vm_compute; reflexivity|].
  split; [vm_compute; reflexivity|]. split; [vm_compute; reflexivity|].
  split; [vm_compute; reflexivity|].
  vm_compute. discriminate.
Qed.

Lemma storage_unavailable_degrades_witness :
  (db no_db_world = None /\
   list_products Builtins.str no_db_world = (Return [demo_product], no_db_world) /\
   @demo_product spec_float _ !! "id" = Some (VStr "0")) /\
  (db no_db_world = None /\ in_items broken_order <> [] /\
   Forall2 (fun it qty => of_int (Z.pos (quantity it)) = Some qty)
           (in_items broken_order)
           [Binary64.of_Z 1; Binary64.of_Z 2; Binary64.of_Z 1] /\
   exists resp : gmap string value,
     create_order broken_order no_db_world = (Return resp, no_db_world) /\
     resp !! "order_id" = Some (VStr "demo-order-id") /\
     resp !! "total" =
       Some (VFloat (round2 (fsum (map (fmul (fdec 499 2))
                                       [Binary64.of_Z 1; Binary64.of_Z 2; Binary64.of_Z 1]))))) /\
  (db insert_fails_world = Some (seeded_db (fails_at 1)) /\
   in_items organic_order <> [] /\
   resolved_all insert_fails_world (ncalls insert_fails_world) (in_items organic_order)
     = Some [organic_line] /\
   is_Some (outage (seeded_db (fails_at 1))
                   (ncalls insert_fails_world + length (in_items organic_order))) /\
   exists (resp : gmap string value) (w' : World),
     create_order organic_order insert_fails_world = (Return resp, w') /\
     resp !! "order_id" = Some (VStr "demo-order-id") /\
     resp !! "total" = Some (VFloat (round2 (fsum (map amount [organic_line])))) /\
     same_store insert_fails_world w' /\
     added insert_fails_world w' "order" = []) /\
  (db unreachable_world = Some (seeded_db unreachable) /\
   outage (seeded_db unreachable) (length (calls (seeded_db unreachable)))
     = Some "connection refused" /\
   exists w' : World,
     list_products Builtins.str unreachable_world
       = (Raise (Error "connection refused"), w') /\
     same_store unreachable_world w') /\
  (db insert_fails_world = Some (seeded_db (fails_at 1)) /\
   in_items two_boxes_order
     = [free_range_item] ++ {| product_id := organic_id; quantity := 1%positive |} :: [] /\
   resolved_all insert_fails_world (ncalls insert_fails_world) [free_range_item]
     = Some [free_range_line] /\
   is_Some (outage (seeded_db (fails_at 1))
                   (ncalls insert_fails_world + length [free_range_item])) /\
   exists w' : World,
     create_order two_boxes_order insert_fails_world =
       (Raise (HTTPException 404 ("Product not found: " +:+ organic_id)), w') /\
     same_store insert_fails_world w' /\
     added insert_fails_world w' "order" = []).
Proof.
  destruct (@storage_unavailable_degrades spec_float _ Builtins.str)
    as (HA & HB & HC & HD & HE).
  assert (Hne : in_items broken_order <> []) by discriminate.
  assert (Hq : Forall2 (fun it qty => of_int (Z.pos (quantity it)) = Some qty)
                       (in_items broken_order)
                       [Binary64.of_Z 1; Binary64.of_Z 2; Binary64.of_Z 1])
    by (repeat constructor).
  assert (Hne' : in_items organic_order <> []) by discriminate.
  assert (Hres : resolved_all insert_fails_world (ncalls insert_fails_world)
                              (in_items organic_order) = Some [organic_line])
    by (vm_compute; reflexivity).
  assert (Hout : is_Some (outage (seeded_db (fails_at 1))
                            (ncalls insert_fails_world + length (in_items organic_order))))
    by (eexists; reflexivity).
  assert (Hpre : resolved_all insert_fails_world (ncalls insert_fails_world) [free_range_item]
                 = Some [free_range_line])
    by (vm_compute; reflexivity).
  assert (Hout' : is_Some (outage (seeded_db (fails_at 1))
                             (ncalls insert_fails_world + length [free_range_item])))
    by (eexists; reflexivity).
  split; [|split; [|split; [|split]]].
  - split; [reflexivity|]. exact (HA no_db_world eq_refl).
  - split; [reflexivity|]. split; [exact Hne|]. split; [exact Hq|].
    exact (HB no_db_world broken_order _ eq_refl Hne Hq).
  - split; [reflexivity|]. split; [exact Hne'|]. split; [exact Hres|]. split; [exact Hout|].
    exact (HC insert_fails_world (seeded_db (fails_at 1)) organic_order _
              eq_refl Hne' Hres Hout).
  - split; [reflexivity|]. split; [reflexivity|].
    exact (HD unreachable_world (seeded_db unreachable) _ eq_refl eq_refl).
  - split; [reflexivity|]. split; [reflexivity|]. split; [exact Hpre|]. split; [exact Hout'|].
    exact (HE insert_fails_world (seeded_db (fails_at 1)) two_boxes_order
              [free_range_item] _ [] _ eq_refl eq_refl Hpre Hout').
Defined.



Lemma list_products_renames_id_witness :
  db seeded_world = Some (seeded_db no_outage) /\
  outage (seeded_db no_outage) (length (calls (seeded_db no_outage))) = None /\
  (exists w' : World,
     list_products Builtins.str seeded_world =
       (Return (map (fun e => <["id" := VStr (Builtins.str (VOid (fst e)))]>
                                (delete "_id" (snd e)))
                    (collection (seeded_db no_outage) "product")), w') /\
     same_store seeded_world w' /\
     Forall (fun e =>
               let out := to_str_id Builtins.str (returned e) in
               out !! "_id" = None /\
               out !! "id" = Some (VStr (Builtins.str (VOid (fst e)))) /\
               forall k, k <> "_id" -> k <> "id" -> out !! k = snd e !! k)
            (collection (seeded_db no_outage) "product")) /\
  ([one_document] !! 0 = Some one_document /\
   exists (res : nat) (h' : list (gmap string value)),
     to_str_id_heap Builtins.str 0 [one_document] = (res, h') /\
     res <> 0 /\
     h' !! 0 = Some one_document /\
     take (length [one_document]) h' = [one_document] /\
     h' !! res = Some (to_str_id Builtins.str one_document)).
Proof.
  destruct (list_products_renames_id Builtins.str seeded_world (seeded_db no_outage)
              eq_refl eq_refl) as (HA & HB).
  split; [reflexivity|]. split; [reflexivity|]. split; [exact HA|].
  split; [reflexivity|]. exact (HB [one_document] 0 one_document eq_refl).
Defined.

(** The listing of the seeded store gives the first product the id that an
    order can then refer to. *)
Example seeded_listing_ids :
  match fst (list_products Builtins.str seeded_world) with
  | Return l => map (fun p => p !! "id") l
  | Raise _ => []
  end
  = [Some (VStr free_range_id); Some (VStr organic_id);
     Some (VStr "000000000000000000000003"); Some (VStr "000000000000000000000004");
     Some (VStr "000000000000000000000005")].
Proof. vm_compute. reflexivity. Qed.

(* ------------------------------------------------------------------ *)
(** ** The further properties on concrete worlds *)

Lemma seeding_twice_is_seeding_once_witness :
  db fresh_world = Some empty_db /\ collection empty_db "product" = [] /\
  (forall k, k < 7 -> outage empty_db (length (calls empty_db) + k) = None) /\
  exists w1 w2 : World,
    startup fresh_world = (Return tt, w1) /\
    startup w1 = (Return tt, w2) /\
    same_store w1 w2 /\
    issued w1 w2 = [CountDocuments "product"] /\
    map snd (stored w2 "product") = map Product_model_dump sample_products.
Proof.
  assert (Hquiet : forall k, k < 7 -> outage empty_db (length (calls empty_db) + k) = None)
    by (intros k _; reflexivity).
  split; [reflexivity|]. split; [reflexivity|]. split; [exact Hquiet|].
  exact (seeding_twice_is_seeding_once fresh_world empty_db eq_refl eq_refl Hquiet).
Defined.

Lemma seeding_stops_at_failed_insert_witness :
  db flaky_world = Some flaky_db /\ collection flaky_db "product" = [] /\ 2 < 5 /\
  (forall k, k <= 2 -> outage flaky_db (length (calls flaky_db) + k) = None) /\
  outage flaky_db (length (calls flaky_db) + 3) = Some "not primary" /\
  exists w' : World,
    seed_products flaky_world = (Raise (Error "not primary"), w') /\
    map snd (stored w' "product") = map Product_model_dump (take 2 sample_products) /\
    length (stored w' "product") = 2.
Proof.
  assert (Hok : forall k, k <= 2 -> outage flaky_db (length (calls flaky_db) + k) = None).
  { intros k Hk. destruct k as [|[|[|k]]]; [reflexivity..|lia]. }
  split; [reflexivity|]. split; [reflexivity|]. split; [lia|]. split; [exact Hok|].
  split; [reflexivity|].
  exact (seeding_stops_at_failed_insert flaky_world flaky_db 2 "not primary"
           eq_refl eq_refl ltac:(lia) Hok eq_refl).
Defined.

Lemma listing_after_startup_witness :
  db fresh_world = Some empty_db /\ collection empty_db "product" = [] /\
  (forall k, k < 7 -> outage empty_db (length (calls empty_db) + k) = None) /\
  exists (w1 w2 : World) (l : list (gmap string value)),
    startup fresh_world = (Return tt, w1) /\
    list_products Builtins.str w1 = (Return l, w2) /\
    map (fun p => p !! "title") l =
      [Some (VStr "Free-Range Eggs (12 pcs)");
       Some (VStr "Organic Eggs (12 pcs)");
       Some (VStr "Omega-3 Enriched Eggs (12 pcs)");
       Some (VStr "Quail Eggs (24 pcs)");
       Some (VStr "Duck Eggs (6 pcs)")] /\
    map (fun p => p !! "price") l =
      [Some (VFloat (fdec 499 2)); Some (VFloat (fdec 599 2)); Some (VFloat (fdec 649 2));
       Some (VFloat (fdec 749 2)); Some (VFloat (fdec 449 2))] /\
    Forall (fun p => p !! "_id" = None /\ exists s, p !! "id" = Some (VStr s)) l.
Proof.
  assert (Hquiet : forall k, k < 7 -> outage empty_db (length (calls empty_db) + k) = None)
    by (intros k _; reflexivity).
  split; [reflexivity|]. split; [reflexivity|]. split; [exact Hquiet|].
  exact (listing_after_startup Builtins.str fresh_world empty_db eq_refl eq_refl Hquiet).
Defined.

Lemma free_range_entry_stored :
  free_range_entry ∈ collection (seeded_db no_outage) "product".
Proof.
  apply (list_elem_of_lookup_2 _ 0). vm_compute. reflexivity.
Qed.

Lemma listed_id_is_orderable_witness :
  db seeded_world = Some (seeded_db no_outage) /\
  products_usable (seeded_db no_outage) /\
  free_range_entry ∈ collection (seeded_db no_outage) "product" /\
  String.length (binary (fst free_range_entry)) = 12 /\
  outage (seeded_db no_outage) (length (calls (seeded_db no_outage))) = None /\
  of_int (Z.pos 2) = Some (Binary64.of_Z 2) /\
  in_items (order_of [(free_range_id, 2%positive)] "cod")
    = [{| product_id := oid_str (fst free_range_entry); quantity := 2%positive |}] /\
  exists (p : gmap string value) (l : spec_float * string) (resp : gmap string value)
         (w' : World),
    stored_product (seeded_db no_outage) (oid_str (fst free_range_entry)) = Some p /\
    p !! "_id" = Some (VOid (fst free_range_entry)) /\
    priced p = Some l /\
    create_order (order_of [(free_range_id, 2%positive)] "cod") seeded_world
      = (Return resp, w') /\
    resp !! "total" =
      Some (VFloat (round2 (fadd fzero (fmul (fst l) (Binary64.of_Z 2))))).
Proof.
  split; [reflexivity|]. split; [exact seeded_products_usable|].
  split; [exact free_range_entry_stored|]. split; [reflexivity|]. split; [reflexivity|].
  split; [reflexivity|]. split; [reflexivity|].
  exact (listed_id_is_orderable seeded_world (seeded_db no_outage) free_range_entry
           2%positive (Binary64.of_Z 2) (order_of [(free_range_id, 2%positive)] "cod")
           eq_refl seeded_products_usable free_range_entry_stored eq_refl eq_refl
           eq_refl eq_refl).
Defined.

Lemma malformed_id_costs_no_driver_call_witness :
  db seeded_world = Some (seeded_db no_outage) /\
  in_items (order_of [(malformed_id, 1%positive)] "card")
    = {| product_id := malformed_id; quantity := 1%positive |} :: [] /\
  ObjectId_of_str malformed_id = None /\
  create_order (order_of [(malformed_id, 1%positive)] "card") seeded_world
  = (Raise (HTTPException 404 ("Product not found: " +:+ malformed_id)), seeded_world).
Proof.
  split; [reflexivity|]. split; [reflexivity|]. split; [reflexivity|].
  exact (malformed_id_costs_no_driver_call seeded_world (seeded_db no_outage)
           (order_of [(malformed_id, 1%positive)] "card")
           {| product_id := malformed_id; quantity := 1%positive |} []
           eq_refl eq_refl eq_refl).
Defined.

Lemma unusable_price_is_a_server_error_witness :
  db odd_world = Some odd_db /\
  in_items (order_of [(free_range_id, 1%positive)] "card")
    = {| product_id := free_range_id; quantity := 1%positive |} :: [] /\
  resolve odd_db (length (calls odd_db)) free_range_id
    = Some (returned (generated 1, unpriced_product)) /\
  py_float (dict_get_or (returned (generated 1, unpriced_product)) "price" (VInt 0)) = None /\
  exists (msg : string) (w' : World),
    create_order (order_of [(free_range_id, 1%positive)] "card") odd_world
      = (Raise (Error msg), w') /\
    same_store odd_world w' /\ added odd_world w' "order" = [].
Proof.
  split; [reflexivity|]. split; [reflexivity|]. split; [reflexivity|]. split; [reflexivity|].
  exact (unusable_price_is_a_server_error odd_world odd_db
           (order_of [(free_range_id, 1%positive)] "card")
           {| product_id := free_range_id; quantity := 1%positive |} []
           (returned (generated 1, unpriced_product)) eq_refl eq_refl eq_refl eq_refl).
Defined.

Lemma missing_price_and_title_default_witness :
  db odd_world = Some odd_db /\
  in_items (order_of [(organic_id, 4%positive)] "card")
    = [{| product_id := organic_id; quantity := 4%positive |}] /\
  resolve odd_db (length (calls odd_db)) organic_id
    = Some (returned (generated 2, bare_product)) /\
  returned (generated 2, bare_product) !! "price" = None /\
  returned (generated 2, bare_product) !! "title" = None /\
  of_int 0 = Some (S754_zero false) /\
  of_int (Z.pos 4) = Some (Binary64.of_Z 4) /\
  exists (resp : gmap string value) (w' : World),
    create_order (order_of [(organic_id, 4%positive)] "card") odd_world = (Return resp, w') /\
    resp !! "total" =
      Some (VFloat (round2 (fadd fzero (fmul (S754_zero false) (Binary64.of_Z 4))))) /\
    Forall (fun e =>
              snd e !! "items" =
                Some (VList [VDoc (OrderItem_model_dump
                                     {| item_product_id := organic_id;
                                        item_title := "Eggs";
                                        item_price := S754_zero false;
                                        item_quantity := 4;
                                        item_subtotal :=
                                          fmul (S754_zero false) (Binary64.of_Z 4) |})]))
           (added odd_world w' "order").
Proof.
  split; [reflexivity|]. split; [reflexivity|]. split; [reflexivity|]. split; [reflexivity|].
  split; [reflexivity|]. split; [reflexivity|]. split; [reflexivity|].
  exact (missing_price_and_title_default odd_world odd_db
           (order_of [(organic_id, 4%positive)] "card")
           {| product_id := organic_id; quantity := 4%positive |}
           (returned (generated 2, bare_product)) (S754_zero false) (Binary64.of_Z 4)
           eq_refl eq_refl eq_refl eq_refl eq_refl eq_refl eq_refl).
Defined.

Lemma oversized_quantity_is_a_server_error_witness :
  in_items huge_order = [] ++ {| product_id := free_range_id; quantity := huge |} :: [] /\
  resolved_all seeded_world (ncalls seeded_world) [] = Some [] /\
  price_title_of seeded_world (ncalls seeded_world + length (@nil OrderItemInput))
                 {| product_id := free_range_id; quantity := huge |}
    = Some (fdec 499 2, "Free-Range Eggs (12 pcs)") /\
  of_int (Z.pos (quantity {| product_id := free_range_id; quantity := huge |})) = None /\
  exists w' : World,
    create_order huge_order seeded_world
      = (Raise (Error "int too large to convert to float"), w') /\
    same_store seeded_world w' /\ added seeded_world w' "order" = [] /\
    Forall (fun c => exists o, c = FindOne "product" o) (issued seeded_world w').
Proof.
  assert (Hpt : price_title_of seeded_world (ncalls seeded_world + length (@nil OrderItemInput))
                               {| product_id := free_range_id; quantity := huge |}
                = Some (fdec 499 2, "Free-Range Eggs (12 pcs)"))
    by (vm_compute; reflexivity).
  assert (Hq : of_int (Z.pos (quantity {| product_id := free_range_id; quantity := huge |}))
               = None)
    by (vm_compute; reflexivity).
  split; [reflexivity|]. split; [reflexivity|]. split; [exact Hpt|]. split; [exact Hq|].
  exact (oversized_quantity_is_a_server_error seeded_world huge_order []
           {| product_id := free_range_id; quantity := huge |} [] [] _ eq_refl eq_refl Hpt Hq).
Defined.
